(** * faust.sensors.datadog: the Datadog sensor

    A shallow embedding of [faust/sensors/datadog.py]: the statsd-style
    facade [DatadogStatsClient] and the sensor [DatadogStatsMonitor].

    - A Python [str] is a [string]; every [ascii] stands for the code
      point of the same number (0..255).
    - A Python [float] is a binary64 primitive float.
    - Methods that touch [self], the transport or the base class run in a
      state-and-exception monad [M]; what they do to the outside is
      appended to a trace of events. *)

From Stdlib Require Import ZArith String Ascii List Bool Lia DecimalString.
From Stdlib Require Import Floats.PrimFloat.
Import ListNotations.

Open Scope string_scope.
Open Scope Z_scope.

(** ** Python strings *)

Definition str := string.

Definition code (c : ascii) : N := N_of_ascii c.

Definition between (lo hi c : ascii) : bool :=
  ((code lo <=? code c) && (code c <=? code hi))%N.

(** [str.isspace] on one code point below 256, which is what [\s] of a
    [str] pattern matches: TAB..CR, FS..US, space, NEL and NBSP. *)
Definition is_space (c : ascii) : bool :=
  let n := code c in
  ((9 <=? n) && (n <=? 13) || (28 <=? n) && (n <=? 32)
   || (n =? 133) || (n =? 160))%N.

(** [str.lower] on one code point below 256: A..Z and the Latin-1
    capitals (all of U+00C0..U+00DE but the multiplication sign). *)
Definition lower_char (c : ascii) : ascii :=
  let n := code c in
  if ((65 <=? n) && (n <=? 90)
      || (192 <=? n) && (n <=? 222) && negb (n =? 215))%N
  then ascii_of_N (n + 32) else c.

Fixpoint lower (s : str) : str :=
  match s with
  | EmptyString => EmptyString
  | String c s' => String (lower_char c) (lower s')
  end.

Fixpoint mem (c : ascii) (chars : str) : bool :=
  match chars with
  | EmptyString => false
  | String d chars' => Ascii.eqb c d || mem c chars'
  end.

(** [s.lstrip(chars)]: [chars] is a set of characters, not a prefix. *)
Fixpoint lstrip (chars : str) (s : str) : str :=
  match s with
  | EmptyString => EmptyString
  | String c s' => if mem c chars then lstrip chars s' else s
  end.

(** [s.rstrip(chars)] *)
Fixpoint rstrip (chars : str) (s : str) : str :=
  match s with
  | EmptyString => EmptyString
  | String c s' =>
      match rstrip chars s' with
      | EmptyString => if mem c chars then EmptyString else String c EmptyString
      | r => String c r
      end
  end.

(** [s.strip(chars)] *)
Definition strip (chars : str) (s : str) : str := rstrip chars (lstrip chars s).

(** ** The two regular expressions of the module

    Both patterns are one bracket expression, once or repeated. *)

Inductive ClassItem :=
| Chr (c : ascii)             (* a literal, escaped or not *)
| Range (lo hi : ascii)       (* lo-hi *)
| Whitespace.                 (* \s *)

Record CharClass := { negated : bool; items : list ClassItem }.

Inductive Pattern :=
| One (cls : CharClass)       (* [...]  *)
| Many (cls : CharClass).     (* [...]+ *)

Definition item_matches (c : ascii) (i : ClassItem) : bool :=
  match i with
  | Chr d => Ascii.eqb c d
  | Range lo hi => between lo hi c
  | Whitespace => is_space c
  end.

Definition class_matches (cls : CharClass) (c : ascii) : bool :=
  xorb (negated cls) (existsb (item_matches c) (items cls)).

(** [re.sub] with a one-character pattern: each match is replaced. *)
Fixpoint sub_one (cls : CharClass) (repl : str) (s : str) : str :=
  match s with
  | EmptyString => EmptyString
  | String c s' =>
      if class_matches cls c then repl ++ sub_one cls repl s'
      else String c (sub_one cls repl s')
  end.

(** [re.sub] with a [+] pattern: matches are greedy and do not overlap,
    so each maximal run is replaced once; [in_run] tells that the
    character before belonged to a run already replaced. *)
Fixpoint sub_many (cls : CharClass) (repl : str) (in_run : bool) (s : str) : str :=
  match s with
  | EmptyString => EmptyString
  | String c s' =>
      if class_matches cls c
      then (if in_run then sub_many cls repl true s'
            else repl ++ sub_many cls repl true s')
      else String c (sub_many cls repl false s')
  end.

(** [pattern.sub(repl, s)] *)
Definition Pattern_sub (p : Pattern) (repl : str) (s : str) : str :=
  match p with
  | One cls => sub_one cls repl s
  | Many cls => sub_many cls repl false s
  end.

(** [RE_NORMALIZE = re.compile(r'[\<\>:\s]+')] *)
Definition RE_NORMALIZE : Pattern :=
  Many {| negated := false; items := [Chr "<"; Chr ">"; Chr ":"; Whitespace] |}.

Definition RE_NORMALIZE_SUBSTITUTION : str := "_".

(** ** Stream labels *)

Record StreamT := { shortlabel : str }.

(** [DatadogStatsMonitor._normalize] with its keyword defaults. *)
Definition _normalize_with (pattern : Pattern) (substitution : str) (name : str) : str :=
  Pattern_sub pattern substitution name.

Definition _normalize (name : str) : str :=
  _normalize_with RE_NORMALIZE RE_NORMALIZE_SUBSTITUTION name.

(** [DatadogStatsMonitor._stream_label] *)
Definition _stream_label (stream : StreamT) : str :=
  lower (strip "_" (_normalize (lstrip "Stream:" (shortlabel stream)))).

(** *** The label as the specification words it *)

(** Remove [p] from the front of [s] when [s] starts with it. *)
Definition remove_prefix (p s : str) : str :=
  if String.prefix p s
  then String.substring (String.length p) (String.length s - String.length p) s
  else s.

Definition spec_stream_label (s : str) : str :=
  lower (strip "_" (_normalize (remove_prefix "Stream:" s))).


(** ** Values, exceptions, labels *)

(** A metric value: the sensor passes [int] counts and offsets and
    [float] durations. *)
Inductive number :=
| Int (z : Z)
| Float (f : float).

(** What a label maps to: topic and stream names, partition numbers. *)
Inductive Value :=
| VStr (s : str)
| VInt (z : Z).

(** [str(v)] *)
Definition py_str (v : Value) : str :=
  match v with
  | VStr s => s
  | VInt z => NilZero.string_of_int (Z.to_int z)
  end.

Inductive Exception :=
| ImportError
| ImproperlyConfigured (msg : str)
| IndexError
| HostError (what : str).      (* whatever the base class raises *)

Inductive result (A : Type) :=
| Ok (a : A)
| Raise (e : Exception).

Arguments Ok {A} a.
Arguments Raise {A} e.

(** A [dict] with [str] keys, in insertion order. *)
Definition Labels := list (str * Value).

(** [d[k] = v] *)
Fixpoint dict_set (k : str) (v : Value) (d : Labels) : Labels :=
  match d with
  | [] => [(k, v)]
  | (k', v') :: d' =>
      if String.eqb k k' then (k, v) :: d' else (k', v') :: dict_set k v d'
  end.

(** [d.update(other)] *)
Definition dict_update (d other : Labels) : Labels :=
  fold_left (fun acc kv => dict_set (fst kv) (snd kv) acc) other d.

(** Truth value of [labels] in [... if labels else None]. *)
Definition truthy (labels : option Labels) : bool :=
  match labels with
  | None => false
  | Some [] => false
  | Some (_ :: _) => true
  end.

Definition dict_items (labels : option Labels) : Labels :=
  match labels with
  | None => []
  | Some d => d
  end.

Record TP := { topic : str; partition : Z }.

Record CollectionT := { name : str }.

(** ** The transport: [datadog.dogstatsd.DogStatsd] *)

Module DogStatsd.

Record t := {
  handle : nat;              (* identity of the object *)
  host : str;
  port : Z;
  namespace : str;
  kwargs : Labels
}.

(** The methods the facade calls, with their arguments. *)
Inductive Call :=
| gauge (metric : str) (value : number) (tags : option (list str)) (sample_rate : float)
| increment (metric : str) (value : number) (tags : option (list str)) (sample_rate : float)
| decrement (metric : str) (value : number) (tags : option (list str)) (sample_rate : float)
| timing (metric : str) (value : number) (tags : option (list str)) (sample_rate : float)
| histogram (metric : str) (value : number) (tags : option (list str)) (sample_rate : float)
| timed (metric : option str) (tags : option (list str)) (sample_rate : float)
        (use_ms : option bool).

Definition tags_of (c : Call) : option (list str) :=
  match c with
  | gauge _ _ t _ | increment _ _ t _ | decrement _ _ t _
  | timing _ _ t _ | histogram _ _ t _ | timed _ t _ _ => t
  end.

Definition sample_rate_of (c : Call) : float :=
  match c with
  | gauge _ _ _ r | increment _ _ _ r | decrement _ _ _ r
  | timing _ _ _ r | histogram _ _ _ r | timed _ _ r _ => r
  end.

End DogStatsd.

(** ** The hooks of the sensor, as the host calls them

    [Obj] stands for the host objects the sensor only hands on:
    messages, events, keys, values, consumers, producers. *)

Inductive Hook (Obj : Type) :=
| OnMessageIn (tp : TP) (offset : Z) (message : Obj)
| OnStreamEventIn (tp : TP) (offset : Z) (stream : StreamT) (event : Obj)
| OnStreamEventOut (tp : TP) (offset : Z) (stream : StreamT) (event : Obj)
| OnMessageOut (tp : TP) (offset : Z) (message : Obj)
| OnTableGet (table : CollectionT) (key : Obj)
| OnTableSet (table : CollectionT) (key : Obj) (value : Obj)
| OnTableDel (table : CollectionT) (key : Obj)
| OnCommitCompleted (consumer : Obj) (state : float)
| OnSendInitiated (producer : Obj) (topic : str) (keysize valsize : Z)
| OnSendCompleted (producer : Obj) (state : float)
| Count (metric_name : str) (count : Z)
| OnTpCommit (tp_offsets : list (TP * Z))
| TrackTpEndOffset (tp : TP) (offset : Z).

Arguments OnMessageIn {Obj}.
Arguments OnStreamEventIn {Obj}.
Arguments OnStreamEventOut {Obj}.
Arguments OnMessageOut {Obj}.
Arguments OnTableGet {Obj}.
Arguments OnTableSet {Obj}.
Arguments OnTableDel {Obj}.
Arguments OnCommitCompleted {Obj}.
Arguments OnSendInitiated {Obj}.
Arguments OnSendCompleted {Obj}.
Arguments Count {Obj}.
Arguments OnTpCommit {Obj}.
Arguments TrackTpEndOffset {Obj}.

Definition is_send_initiated {Obj} (h : Hook Obj) : bool :=
  match h with
  | OnSendInitiated _ _ _ _ => true
  | _ => false
  end.

(** ** What the code does to the outside *)

Inductive Event (Obj : Type) :=
| Delegated (h : Hook Obj)                    (* super().hook(...) *)
| Constructed (d : DogStatsd.t)               (* DogStatsd(...) *)
| Called (handle : nat) (c : DogStatsd.Call). (* a method of the transport *)

Arguments Delegated {Obj}.
Arguments Constructed {Obj}.
Arguments Called {Obj}.

Record World (Obj : Type) := {
  trace : list (Event Obj);      (* oldest first *)
  allocated : nat;               (* objects created so far *)
  monotonic_clock : nat -> float;(* the n-th reading of time.monotonic *)
  ticks : nat                    (* readings taken so far *)
}.

Arguments trace {Obj}.
Arguments allocated {Obj}.
Arguments monotonic_clock {Obj}.
Arguments ticks {Obj}.

Definition record {Obj} (e : Event Obj) (w : World Obj) : World Obj :=
  {| trace := trace w ++ [e];
     allocated := allocated w;
     monotonic_clock := monotonic_clock w;
     ticks := ticks w |}.

(** The metric calls of a trace, in order. *)
Fixpoint calls {Obj} (evs : list (Event Obj)) : list DogStatsd.Call :=
  match evs with
  | [] => []
  | Called _ c :: evs' => c :: calls evs'
  | _ :: evs' => calls evs'
  end.

(** The transports built in a trace, in order. *)
Fixpoint constructions {Obj} (evs : list (Event Obj)) : list DogStatsd.t :=
  match evs with
  | [] => []
  | Constructed d :: evs' => d :: constructions evs'
  | _ :: evs' => constructions evs'
  end.

(** ** The facade: [class DatadogStatsClient]

    [DogStatsd] sends over UDP and drops what fails, so its methods are
    taken to return normally; each one is recorded in the trace. *)

Module DatadogStatsClient.

Record t := {
  client : DogStatsd.t;
  rate : float;
  sanitize_re : Pattern;
  re_substitution : str
}.

Section Methods.
Context {Obj : Type}.

(** [__init__(self, host, port, prefix, rate, **kwargs)] *)
Definition __init__ (host : str) (port : Z) (prefix : str) (rate : float)
    (kwargs : Labels) (w : World Obj) : t * World Obj :=
  let d := {| DogStatsd.handle := allocated w;
              DogStatsd.host := host;
              DogStatsd.port := port;
              DogStatsd.namespace := prefix;
              DogStatsd.kwargs := kwargs |} in
  ({| client := d;
      rate := rate;
      sanitize_re :=
        One {| negated := true;
               items := [Range "0" "9"; Range "a" "z"; Range "A" "Z"; Chr "_"] |};
      re_substitution := "_" |},
   {| trace := trace w ++ [Constructed d];
      allocated := S (allocated w);
      monotonic_clock := monotonic_clock w;
      ticks := ticks w |}).

(** The local [sanitize] of [_encode_labels]. *)
Definition sanitize (self : t) (s : Value) : str :=
  Pattern_sub (sanitize_re self) (re_substitution self) (py_str s).

Definition _encode_labels (self : t) (labels : option Labels) : option (list str) :=
  if truthy labels
  then Some (map (fun kv => sanitize self (VStr (fst kv)) ++ ":" ++ sanitize self (snd kv))
                 (dict_items labels))
  else None.

Definition transport (self : t) (c : DogStatsd.Call) (w : World Obj) : World Obj :=
  record (Called (DogStatsd.handle (client self)) c) w.

Definition gauge (self : t) (metric : str) (value : number)
    (labels : option Labels) : World Obj -> World Obj :=
  transport self (DogStatsd.gauge metric value (_encode_labels self labels) (rate self)).

Definition increment (self : t) (metric : str) (value : number)
    (labels : option Labels) : World Obj -> World Obj :=
  transport self (DogStatsd.increment metric value (_encode_labels self labels) (rate self)).

Definition incr (self : t) (metric : str) (count : number) : World Obj -> World Obj :=
  increment self metric count None.

Definition decrement (self : t) (metric : str) (value : number)
    (labels : option Labels) : World Obj -> World Obj :=
  transport self (DogStatsd.decrement metric value (_encode_labels self labels) (rate self)).

Definition decr (self : t) (metric : str) (count : number) : World Obj -> World Obj :=
  decrement self metric count None.

Definition timing (self : t) (metric : str) (value : number)
    (labels : option Labels) : World Obj -> World Obj :=
  transport self (DogStatsd.timing metric value (_encode_labels self labels) (rate self)).

Definition timed (self : t) (metric : option str) (labels : option Labels)
    (use_ms : option bool) : World Obj -> World Obj :=
  transport self (DogStatsd.timed metric (_encode_labels self labels) (rate self) use_ms).

Definition histogram (self : t) (metric : str) (value : number)
    (labels : option Labels) : World Obj -> World Obj :=
  transport self (DogStatsd.histogram metric value (_encode_labels self labels) (rate self)).

End Methods.

(** One call of the facade, with its arguments. *)
Inductive Operation :=
| Gauge (metric : str) (value : number) (labels : option Labels)
| Increment (metric : str) (value : number) (labels : option Labels)
| Decrement (metric : str) (value : number) (labels : option Labels)
| Timing (metric : str) (value : number) (labels : option Labels)
| Histogram (metric : str) (value : number) (labels : option Labels)
| Timed (metric : option str) (labels : option Labels) (use_ms : option bool).

Definition labels_of (op : Operation) : option Labels :=
  match op with
  | Gauge _ _ l | Increment _ _ l | Decrement _ _ l
  | Timing _ _ l | Histogram _ _ l | Timed _ l _ => l
  end.

Definition perform {Obj} (self : t) (op : Operation) : World Obj -> World Obj :=
  match op with
  | Gauge m v l => gauge self m v l
  | Increment m v l => increment self m v l
  | Decrement m v l => decrement self m v l
  | Timing m v l => timing self m v l
  | Histogram m v l => histogram self m v l
  | Timed m l u => timed self m l u
  end.

End DatadogStatsClient.

(** ** Loading the module

    [datadog_installed] tells whether the [datadog] distribution can be
    imported in the running interpreter. *)

Record Module := {
  datadog : option unit          (* [None]: the name is bound to [None] *)
}.

(** Line 3: [from datadog.dogstatsd import DogStatsd] *)
Definition import_DogStatsd (datadog_installed : bool) : result unit :=
  if datadog_installed then Ok tt else Raise ImportError.

(** Line 15: [import datadog] *)
Definition import_datadog (datadog_installed : bool) : result unit :=
  if datadog_installed then Ok tt else Raise ImportError.

(** The top-level statements of the module, in order. *)
Definition load_module (datadog_installed : bool) : result Module :=
  match import_DogStatsd datadog_installed with
  | Raise e => Raise e
  | Ok _ =>
      match import_datadog datadog_installed with
      | Ok _ => Ok {| datadog := Some tt |}
      | Raise ImportError => Ok {| datadog := None |}
      | Raise e => Raise e
      end
  end.

(** ** The base class: [faust.sensors.monitor.Monitor]

    Its code is not part of this module; the sensor only calls its hooks
    and reads [events_runtime]. *)

Class MonitorBase (Obj : Type) := {
  Monitor : Type;                                  (* the attributes it keeps on [self] *)
  events_runtime : Monitor -> list float;
  Monitor_init : Obj -> result Monitor;            (* [__init__] with the keyword arguments *)
  Monitor_hook : Hook Obj -> Monitor -> result Obj * Monitor
                                                   (* [super().hook(...)]; may raise midway *)
}.

(** ** The sensor: [class DatadogStatsMonitor(Monitor)] *)

Section Sensor.
Context {Obj : Type} {base : MonitorBase Obj}.

Record DatadogStatsMonitor := {
  host : str;
  port : Z;
  prefix : str;
  rate : float;
  monitor : Monitor;                               (* the part of [self] the base class owns *)
  cached_client : option DatadogStatsClient.t      (* [self.__dict__.get('client')] *)
}.

Definition State : Type := DatadogStatsMonitor * World Obj.

(** Methods: the state is threaded, an exception keeps the effects
    made before it. *)
Definition M (A : Type) : Type := State -> result A * State.

Definition ret {A} (a : A) : M A := fun s => (Ok a, s).

Definition raise {A} (e : Exception) : M A := fun s => (Raise e, s).

Definition bind {A B} (m : M A) (k : A -> M B) : M B :=
  fun s =>
    match m s with
    | (Ok a, s') => k a s'
    | (Raise e, s') => (Raise e, s')
    end.

Notation "x <- m ;; k" := (bind m (fun x => k))
  (at level 61, m at next level, right associativity).
Notation "m ;; k" := (bind m (fun _ => k))
  (at level 61, right associativity).

(** A call that only reaches the outside and returns [None]. *)
Definition lift (f : World Obj -> World Obj) : M unit :=
  fun '(self, w) => (Ok tt, (self, f w)).

(** Assignments to attributes of [self]. *)
Definition set_monitor (b : Monitor) (self : DatadogStatsMonitor) : DatadogStatsMonitor :=
  {| host := host self; port := port self; prefix := prefix self; rate := rate self;
     monitor := b; cached_client := cached_client self |}.

Definition set_cached_client (c : DatadogStatsClient.t) (self : DatadogStatsMonitor)
    : DatadogStatsMonitor :=
  {| host := host self; port := port self; prefix := prefix self; rate := rate self;
     monitor := monitor self; cached_client := Some c |}.

Fixpoint for_each {A} (l : list A) (body : A -> M unit) : M unit :=
  match l with
  | [] => ret tt
  | x :: l' => body x ;; for_each l' body
  end.

(** [__init__(self, host, port, prefix, rate, **kwargs)], in a loaded
    module [m]; what it raises leaves no object behind. *)
Definition __init__ (m : Module) (host : str) (port : Z) (prefix : str)
    (rate : float) (kwargs : Obj) : result DatadogStatsMonitor :=
  match datadog m with
  | None =>
      Raise (ImproperlyConfigured "DatadogStatsMonitor requires `pip install datadog`.")
  | Some _ =>
      match Monitor_init kwargs with
      | Ok b => Ok {| host := host; port := port; prefix := prefix; rate := rate;
                      monitor := b; cached_client := None |}
      | Raise e => Raise e
      end
  end.

(** Import the module, then call the class. *)
Definition construct (datadog_installed : bool) (host : str) (port : Z)
    (prefix : str) (rate : float) (kwargs : Obj) : result DatadogStatsMonitor :=
  match load_module datadog_installed with
  | Ok m => __init__ m host port prefix rate kwargs
  | Raise e => Raise e
  end.

Definition _new_datadog_stats_client (self : DatadogStatsMonitor) (w : World Obj)
    : DatadogStatsClient.t * World Obj :=
  DatadogStatsClient.__init__ (host self) (port self) (prefix self) (rate self) [] w.

(** [client], a [cached_property]: the first read calls the method
    and stores what it returns in the instance; later reads return
    what is stored. *)
Definition client : M DatadogStatsClient.t :=
  fun '(self, w) =>
    match cached_client self with
    | Some c => (Ok c, (self, w))
    | None =>
        let '(c, w') := _new_datadog_stats_client self w in
        (Ok c, (set_cached_client c self, w'))
    end.

(** [self.client.method(...)], the arguments already evaluated. *)
Definition on_client (method : DatadogStatsClient.t -> World Obj -> World Obj) : M unit :=
  c <- client ;;
  lift (method c).

(** [super().hook(...)] *)
Definition super (h : Hook Obj) : M Obj :=
  fun '(self, w) =>
    let '(r, b) := Monitor_hook h (monitor self) in
    (r, (set_monitor b self, record (Delegated h) w)).

(** [monotonic()] *)
Definition monotonic : M float :=
  fun '(self, w) =>
    (Ok (monotonic_clock w (ticks w)),
     (self, {| trace := trace w; allocated := allocated w;
               monotonic_clock := monotonic_clock w; ticks := S (ticks w) |})).

(** [self.events_runtime[-1]] *)
Definition last_events_runtime : M float :=
  fun '(self, w) =>
    match rev (events_runtime (monitor self)) with
    | [] => (Raise IndexError, (self, w))
    | x :: _ => (Ok x, (self, w))
    end.

Definition _time (time : float) : float := (time * 1000)%float.

Definition _format_label (tp : option TP) (stream : option StreamT)
    (table : option CollectionT) : Labels :=
  let labels := [] in
  let labels :=
    match tp with
    | Some tp => dict_update labels [("topic", VStr (topic tp));
                                     ("partition", VInt (partition tp))]
    | None => labels
    end in
  let labels :=
    match stream with
    | Some stream => dict_update labels [("stream", VStr (_stream_label stream))]
    | None => labels
    end in
  let labels :=
    match table with
    | Some table => dict_update labels [("table", VStr (name table))]
    | None => labels
    end in
  labels.

Definition on_message_in (tp : TP) (offset : Z) (message : Obj) : M unit :=
  super (OnMessageIn tp offset message) ;;
  let labels := _format_label (Some tp) None None in
  on_client (fun c => DatadogStatsClient.increment c "messages_received" (Int 1) (Some labels)) ;;
  on_client (fun c => DatadogStatsClient.increment c "messages_active" (Int 1) (Some labels)) ;;
  on_client (fun c => DatadogStatsClient.gauge c "read_offset" (Int offset) (Some labels)).

Definition on_stream_event_in (tp : TP) (offset : Z) (stream : StreamT) (event : Obj)
    : M unit :=
  super (OnStreamEventIn tp offset stream event) ;;
  let labels := _format_label (Some tp) (Some stream) None in
  on_client (fun c => DatadogStatsClient.increment c "events" (Int 1) (Some labels)) ;;
  on_client (fun c => DatadogStatsClient.increment c "events_active" (Int 1) (Some labels)).

Definition on_stream_event_out (tp : TP) (offset : Z) (stream : StreamT) (event : Obj)
    : M unit :=
  super (OnStreamEventOut tp offset stream event) ;;
  let labels := _format_label (Some tp) (Some stream) None in
  on_client (fun c => DatadogStatsClient.decrement c "events_active" (Float 1) (Some labels)) ;;
  c <- client ;;
  runtime <- last_events_runtime ;;
  lift (DatadogStatsClient.timing c "events_runtime" (Float (_time runtime)) (Some labels)).

Definition on_message_out (tp : TP) (offset : Z) (message : Obj) : M unit :=
  super (OnMessageOut tp offset message) ;;
  on_client (fun c => DatadogStatsClient.decrement c "messages_active" (Float 1)
                        (Some (_format_label (Some tp) None None))).

Definition on_table_get (table : CollectionT) (key : Obj) : M unit :=
  super (OnTableGet table key) ;;
  on_client (fun c => DatadogStatsClient.increment c "table_keys_retrieved" (Int 1)
                        (Some (_format_label None None (Some table)))).

Definition on_table_set (table : CollectionT) (key : Obj) (value : Obj) : M unit :=
  super (OnTableSet table key value) ;;
  on_client (fun c => DatadogStatsClient.increment c "table_keys_updated" (Int 1)
                        (Some (_format_label None None (Some table)))).

Definition on_table_del (table : CollectionT) (key : Obj) : M unit :=
  super (OnTableDel table key) ;;
  on_client (fun c => DatadogStatsClient.increment c "table_keys_deleted" (Int 1)
                        (Some (_format_label None None (Some table)))).

Definition on_commit_completed (consumer : Obj) (state : float) : M unit :=
  super (OnCommitCompleted consumer state) ;;
  c <- client ;;
  now <- monotonic ;;
  lift (DatadogStatsClient.timing c "commit_latency" (Float (_time (now - state)%float)) None).

Definition on_send_initiated (producer : Obj) (topic : str) (keysize valsize : Z)
    : M Obj :=
  on_client (fun c => DatadogStatsClient.increment c "topic_messages_sent" (Int 1)
                        (Some [("topic", VStr topic)])) ;;
  super (OnSendInitiated producer topic keysize valsize).

Definition on_send_completed (producer : Obj) (state : float) : M unit :=
  super (OnSendCompleted producer state) ;;
  on_client (fun c => DatadogStatsClient.increment c "messages_sent" (Int 1) None) ;;
  c <- client ;;
  now <- monotonic ;;
  lift (DatadogStatsClient.timing c "send_latency" (Float (_time (now - state)%float)) None).

Definition count (metric_name : str) (count : Z) : M unit :=
  super (Count metric_name count) ;;
  on_client (fun c => DatadogStatsClient.increment c metric_name (Int count) None).

Definition on_tp_commit (tp_offsets : list (TP * Z)) : M unit :=
  super (OnTpCommit tp_offsets) ;;
  for_each tp_offsets (fun item =>
    on_client (fun c => DatadogStatsClient.gauge c "committed_offset" (Int (snd item))
                          (Some (_format_label (Some (fst item)) None None)))).

Definition track_tp_end_offset (tp : TP) (offset : Z) : M unit :=
  super (TrackTpEndOffset tp offset) ;;
  on_client (fun c => DatadogStatsClient.gauge c "end_offset" (Int offset)
                        (Some (_format_label (Some tp) None None))).

(** The host calls a hook; [None] is the value of the hooks that
    return nothing. *)
Definition call (h : Hook Obj) : M (option Obj) :=
  match h with
  | OnMessageIn tp offset message => on_message_in tp offset message ;; ret None
  | OnStreamEventIn tp offset stream event =>
      on_stream_event_in tp offset stream event ;; ret None
  | OnStreamEventOut tp offset stream event =>
      on_stream_event_out tp offset stream event ;; ret None
  | OnMessageOut tp offset message => on_message_out tp offset message ;; ret None
  | OnTableGet table key => on_table_get table key ;; ret None
  | OnTableSet table key value => on_table_set table key value ;; ret None
  | OnTableDel table key => on_table_del table key ;; ret None
  | OnCommitCompleted consumer state => on_commit_completed consumer state ;; ret None
  | OnSendInitiated producer topic keysize valsize =>
      r <- on_send_initiated producer topic keysize valsize ;; ret (Some r)
  | OnSendCompleted producer state => on_send_completed producer state ;; ret None
  | Count metric_name n => count metric_name n ;; ret None
  | OnTpCommit tp_offsets => on_tp_commit tp_offsets ;; ret None
  | TrackTpEndOffset tp offset => track_tp_end_offset tp offset ;; ret None
  end.

(** The host calls hooks one after the other; a hook that raises does
    not stop the host from calling the next. *)
Fixpoint calls_in_turn (hs : list (Hook Obj)) (s : State) : State :=
  match hs with
  | [] => s
  | h :: hs' => calls_in_turn hs' (snd (call h s))
  end.

(** What a method adds to the trace when run from [s]. *)
Definition added {A} (m : M A) (s : State) : list (Event Obj) :=
  skipn (length (trace (snd s))) (trace (snd (snd (m s)))).

End Sensor.

(** ** The vocabulary of the properties *)

(** [[0-9a-zA-Z_]] *)
Definition word_char (c : ascii) : bool :=
  between "0" "9" c || between "a" "z" c || between "A" "Z" c || Ascii.eqb c "_".

(** The string matches [^[0-9a-zA-Z_]*$]. *)
Fixpoint word_only (s : str) : bool :=
  match s with
  | EmptyString => true
  | String c s' => word_char c && word_only s'
  end.

(** Every character outside [[0-9a-zA-Z_]] becomes an underscore, the
    others stay. *)
Fixpoint replace_outside (s : str) : str :=
  match s with
  | EmptyString => EmptyString
  | String c s' => String (if word_char c then c else "_"%char) (replace_outside s')
  end.

(** The tag of one label, each side cleaned on its own. *)
Definition clean_tag (kv : str * Value) : str :=
  replace_outside (fst kv) ++ ":" ++ replace_outside (py_str (snd kv)).

(** The call an operation of the facade makes on the transport. *)
Definition sends (c : DatadogStatsClient.t) (op : DatadogStatsClient.Operation)
    : DogStatsd.Call :=
  let tags := DatadogStatsClient._encode_labels c (DatadogStatsClient.labels_of op) in
  let r := DatadogStatsClient.rate c in
  match op with
  | DatadogStatsClient.Gauge m v _ => DogStatsd.gauge m v tags r
  | DatadogStatsClient.Increment m v _ => DogStatsd.increment m v tags r
  | DatadogStatsClient.Decrement m v _ => DogStatsd.decrement m v tags r
  | DatadogStatsClient.Timing m v _ => DogStatsd.timing m v tags r
  | DatadogStatsClient.Histogram m v _ => DogStatsd.histogram m v tags r
  | DatadogStatsClient.Timed m _ u => DogStatsd.timed m tags r u
  end.

(** No metric call comes before the first delegation. *)
Fixpoint delegation_first {Obj} (evs : list (Event Obj)) : bool :=
  match evs with
  | [] => true
  | Delegated _ :: _ => true
  | Called _ _ :: _ => false
  | Constructed _ :: evs' => delegation_first evs'
  end.

Section Vocabulary.
Context {Obj : Type} {base : MonitorBase Obj}.

(** The client was built from the attributes of the sensor. *)
Definition configured (self : DatadogStatsMonitor) (c : DatadogStatsClient.t) : Prop :=
  DogStatsd.host (DatadogStatsClient.client c) = host self /\
  DogStatsd.port (DatadogStatsClient.client c) = port self /\
  DogStatsd.namespace (DatadogStatsClient.client c) = prefix self /\
  DatadogStatsClient.rate c = rate self.

Definition same_attributes (a b : DatadogStatsMonitor) : Prop :=
  host a = host b /\ port a = port b /\ prefix a = prefix b /\ rate a = rate b.

(** What a method may do to the state: the attributes stay, the trace
    grows, and the cache is either kept, with no transport built, or
    filled from empty with the one transport built. *)
Definition Step (s s' : State) : Prop :=
  same_attributes (fst s) (fst s') /\
  exists evs,
    trace (snd s') = (trace (snd s) ++ evs)%list /\
    ((cached_client (fst s') = cached_client (fst s) /\ constructions evs = []) \/
     (cached_client (fst s) = None /\
      exists c, cached_client (fst s') = Some c /\ configured (fst s) c /\
                constructions evs = [DatadogStatsClient.client c])).

Definition Steps {A} (m : M A) : Prop := forall s, Step s (snd (m s)).

(** The client a read of [self.client] returns in state [s]. *)
Definition the_client (s : State) : DatadogStatsClient.t :=
  match cached_client (fst s) with
  | Some c => c
  | None => fst (_new_datadog_stats_client (fst s) (snd s))
  end.

(** The events only build transports. *)
Definition only_builds (evs : list (Event Obj)) : Prop :=
  map Constructed (constructions evs) = evs.

(** A world transformer that makes one call on the transport. *)
Definition Emits (f : World Obj -> World Obj) : Prop :=
  forall w, exists n c, f w = record (Called n c) w.

End Vocabulary.

(** ** A small host, for the examples

    An object is the runtime the host measured for an event, when it
    measured one.  The base class keeps the history of these runtimes:
    [on_stream_event_out] appends the event's runtime, and
    [on_send_initiated] returns its time stamp. *)

Module SmallHost.

Definition Obj : Type := option float.

Definition hook (h : Hook Obj) (history : list float) : result Obj * list float :=
  match h with
  | OnStreamEventOut _ _ _ (Some runtime) => (Ok None, (history ++ [runtime])%list)
  | OnSendInitiated _ _ _ _ => (Ok (Some 12.5%float), history)
  | _ => (Ok None, history)
  end.

#[global] Instance base : MonitorBase Obj := {|
  Monitor := list float;
  events_runtime := fun history => history;
  Monitor_init := fun _ => Ok [];
  Monitor_hook := hook
|}.

Definition world : World Obj :=
  {| trace := []; allocated := 0; monotonic_clock := fun _ => 100%float; ticks := 0 |}.

(** A sensor built with the default arguments, no client yet. *)
Definition sensor : DatadogStatsMonitor :=
  {| host := "localhost"; port := 8125; prefix := "faust-app"; rate := 1%float;
     monitor := []; cached_client := None |}.

Definition start : State := (sensor, world).

Definition orders : TP := {| topic := "orders"; partition := 2 |}.

Definition withdrawals : StreamT := {| shortlabel := "Stream: <Topic: withdrawals>" |}.

End SmallHost.


(** ** A host that can refuse, for the examples

    An object is a number.  The base class refuses keyword arguments
    below zero, and its [on_message_in] refuses an offset below zero
    after it has counted the message. *)

Module StrictHost.

Definition Obj : Type := Z.

Definition init (kwargs : Obj) : result nat :=
  if kwargs <? 0 then Raise (ImproperlyConfigured "negative") else Ok O.

Definition hook (h : Hook Obj) (seen : nat) : result Obj * nat :=
  match h with
  | OnMessageIn _ offset _ =>
      if offset <? 0 then (Raise (HostError "negative offset"), S seen) else (Ok 0, S seen)
  | OnSendInitiated _ _ keysize valsize => (Ok (keysize + valsize), S seen)
  | _ => (Ok 0, S seen)
  end.

#[global] Instance base : MonitorBase Obj := {|
  Monitor := nat;
  events_runtime := fun _ => [];
  Monitor_init := init;
  Monitor_hook := hook
|}.

Definition world : World Obj :=
  {| trace := []; allocated := 7; monotonic_clock := fun n => if Nat.eqb n 0 then 10.25%float else 11%float;
     ticks := 0 |}.

Definition sensor : DatadogStatsMonitor :=
  {| host := "statsd.local"; port := 8125; prefix := "app"; rate := 0.5%float;
     monitor := O; cached_client := None |}.

Definition orders : TP := {| topic := "orders"; partition := 2 |}.

Definition accounts : CollectionT := {| name := "accounts-table" |}.

End StrictHost.

(** ** More vocabulary: the shape of strings and of traces *)

(** Every character of the string satisfies [p]. *)
Fixpoint all_chars (p : ascii -> bool) (s : str) : bool :=
  match s with
  | EmptyString => true
  | String c s' => p c && all_chars p s'
  end.

(** The characters [RE_NORMALIZE] replaces. *)
Definition separator (c : ascii) : bool :=
  Ascii.eqb c "<" || Ascii.eqb c ">" || Ascii.eqb c ":" || is_space c.

Definition first_is (c : ascii) (s : str) : bool :=
  match s with
  | EmptyString => false
  | String d _ => Ascii.eqb d c
  end.

Fixpoint last_is (c : ascii) (s : str) : bool :=
  match s with
  | EmptyString => false
  | String d EmptyString => Ascii.eqb d c
  | String _ s' => last_is c s'
  end.


Fixpoint count_char (c : ascii) (s : str) : nat :=
  match s with
  | EmptyString => O
  | String d s' => (if Ascii.eqb d c then 1 else 0) + count_char c s'
  end.

(** The tag matches [^[0-9a-zA-Z_]*:[0-9a-zA-Z_]*$]. *)
Definition tag_ok (tag : str) : bool :=
  all_chars (fun c => word_char c || Ascii.eqb c ":") tag
  && Nat.eqb (count_char ":" tag) 1.

(** The tags of a call are none, or all of that shape. *)
Definition tags_ok (c : DogStatsd.Call) : bool :=
  match DogStatsd.tags_of c with
  | None => true
  | Some tags => forallb tag_ok tags
  end.

(** The keys of a label set, in order. *)
Definition keys (labels : Labels) : list str := map fst labels.

Section TraceVocabulary.
Context {Obj : Type} {base : MonitorBase Obj}.

(** The event is the work of client [c]: its transport being built, or
    a call on its transport with its sample rate and labels it
    encoded. *)
Definition by_client (c : DatadogStatsClient.t) (e : Event Obj) : Prop :=
  match e with
  | Delegated _ => True
  | Constructed d => d = DatadogStatsClient.client c
  | Called n call =>
      n = DogStatsd.handle (DatadogStatsClient.client c) /\
      DogStatsd.sample_rate_of call = DatadogStatsClient.rate c /\
      exists labels,
        DogStatsd.tags_of call = DatadogStatsClient._encode_labels c labels
  end.

(** What a method may do, seen from the client: the client a read would
    return stays the same, the cache is kept or filled with it, and
    every event added is the work of that client. *)
Definition Sound (s s' : State) : Prop :=
  the_client s' = the_client s /\
  (cached_client (fst s') = cached_client (fst s) \/
   cached_client (fst s') = Some (the_client s)) /\
  exists evs,
    trace (snd s') = (trace (snd s) ++ evs)%list /\ Forall (by_client (the_client s)) evs.

Definition Sounds {A} (m : M A) : Prop := forall s, Sound s (snd (m s)).

(** The method leaves the sensor and the trace as they are. *)
Definition Silent {A} (m : M A) : Prop :=
  forall s,
    fst (snd (m s)) = fst s /\
    trace (snd (snd (m s))) = trace (snd s) /\
    allocated (snd (snd (m s))) = allocated (snd s).

(** The method leaves alone what the base class keeps. *)
Definition Keeps_monitor {A} (m : M A) : Prop :=
  forall s, monitor (fst (snd (m s))) = monitor (fst s).

(** The method returns; it never raises. *)
Definition Returns {A} (m : M A) : Prop :=
  forall s, exists a, fst (m s) = Ok a.

(** The events a run of hooks added to the trace of [w]. *)
Definition added_by (hs : list (Hook Obj)) (self : DatadogStatsMonitor) (w : World Obj)
    : list (Event Obj) :=
  skipn (length (trace w)) (trace (snd (calls_in_turn hs (self, w)))).

(** The value of a hook that returns: [on_send_initiated] hands on the
    value of the base class, the others return [None]. *)
Definition returned (h : Hook Obj) (r : Obj) : option Obj :=
  if is_send_initiated h then Some r else None.

End TraceVocabulary.

Definition is_stream_event_out {Obj} (h : Hook Obj) : bool :=
  match h with
  | OnStreamEventOut _ _ _ _ => true
  | _ => false
  end.

(** * Properties *)

(** ** Strings and patterns *)





Lemma word_char_underscore : word_char "_" = true.
Proof. reflexivity. Qed.

Lemma word_only_replace_outside (s : str) : word_only (replace_outside s) = true.
Proof.
  induction s as [|c s IH]; simpl; [reflexivity|].
  rewrite IH, andb_true_r.
  destruct (word_char c) eqn:E; [exact E | exact word_char_underscore].
Qed.

Lemma length_replace_outside (s : str) :
  String.length (replace_outside s) = String.length s.
Proof.
  induction s as [|c s IH]; simpl; [reflexivity | now rewrite IH].
Qed.

(** The compiled [sanitize_re] matches the characters that are not word
    characters. *)
Lemma sanitize_re_matches (c : ascii) :
  class_matches
    {| negated := true;
       items := [Range "0" "9"; Range "a" "z"; Range "A" "Z"; Chr "_"] |} c
  = negb (word_char c).
Proof.
  unfold class_matches, word_char. simpl.
  destruct (between "0" "9" c), (between "a" "z" c), (between "A" "Z" c),
    (Ascii.eqb c "_"); reflexivity.
Qed.

Lemma sub_one_sanitize (s : str) :
  sub_one
    {| negated := true;
       items := [Range "0" "9"; Range "a" "z"; Range "A" "Z"; Chr "_"] |} "_" s
  = replace_outside s.
Proof.
  induction s as [|c s IH]; [reflexivity|].
  cbn [sub_one replace_outside].
  rewrite sanitize_re_matches, IH.
  destruct (word_char c); reflexivity.
Qed.

(** ** The facade *)

Section FacadeProperties.
Context {Obj : Type}.

Lemma perform_sends (c : DatadogStatsClient.t) (op : DatadogStatsClient.Operation)
    (w : World Obj) :
  DatadogStatsClient.perform c op w
  = record (Called (DogStatsd.handle (DatadogStatsClient.client c)) (sends c op)) w.
Proof. destruct op; reflexivity. Qed.

Lemma sanitize_constructed (host : str) (port : Z) (prefix : str) (rate : float)
    (kwargs : Labels) (w0 : World Obj) (v : Value) :
  DatadogStatsClient.sanitize
    (fst (DatadogStatsClient.__init__ host port prefix rate kwargs w0)) v
  = replace_outside (py_str v).
Proof.
  unfold DatadogStatsClient.sanitize. cbn. apply sub_one_sanitize.
Qed.

(** C3: whatever facade operation is called on a constructed client,
    the one transport call it makes carries, for a non-empty label
    set, one tag per label: key and value, each with every character
    outside [0-9a-zA-Z_] replaced by an underscore on its own, joined
    by a colon; and a string so cleaned matches [^[0-9a-zA-Z_]*$]. *)
Theorem transport_tags_are_sanitized (host : str) (port : Z) (prefix : str)
    (rate : float) (kwargs : Labels) (w0 w : World Obj)
    (op : DatadogStatsClient.Operation) :
  let c := fst (DatadogStatsClient.__init__ host port prefix rate kwargs w0) in
  trace (DatadogStatsClient.perform c op w)
    = (trace w ++ [Called (DogStatsd.handle (DatadogStatsClient.client c)) (sends c op)])%list /\
  DogStatsd.tags_of (sends c op)
    = (if truthy (DatadogStatsClient.labels_of op)
       then Some (map clean_tag (dict_items (DatadogStatsClient.labels_of op)))
       else None) /\
  (forall kv : str * Value,
      word_only (replace_outside (fst kv)) = true /\
      word_only (replace_outside (py_str (snd kv))) = true).
Proof.
  intros c. split; [|split].
  - rewrite perform_sends. reflexivity.
  - assert (E : DogStatsd.tags_of (sends c op)
                = DatadogStatsClient._encode_labels c (DatadogStatsClient.labels_of op))
      by (destruct op; reflexivity).
    rewrite E. unfold DatadogStatsClient._encode_labels.
    destruct (truthy (DatadogStatsClient.labels_of op)); [|reflexivity].
    f_equal. apply map_ext. intros kv. unfold clean_tag, c.
    now rewrite !sanitize_constructed.
  - intros kv. split; apply word_only_replace_outside.
Qed.

(** C8: whatever facade operation is called, absent labels and an
    empty label mapping both reach the transport as no tags, and a
    non-empty mapping as a non-empty list: never an empty list. *)
Theorem absent_labels_are_no_tags (c : DatadogStatsClient.t)
    (op : DatadogStatsClient.Operation) (w : World Obj) :
  trace (DatadogStatsClient.perform c op w)
    = (trace w ++ [Called (DogStatsd.handle (DatadogStatsClient.client c)) (sends c op)])%list /\
  match DatadogStatsClient.labels_of op with
  | None | Some [] => DogStatsd.tags_of (sends c op) = None
  | Some (_ :: _) => exists tag tags, DogStatsd.tags_of (sends c op) = Some (tag :: tags)
  end.
Proof.
  split; [rewrite perform_sends; reflexivity|].
  assert (E : DogStatsd.tags_of (sends c op)
              = DatadogStatsClient._encode_labels c (DatadogStatsClient.labels_of op))
    by (destruct op; reflexivity).
  rewrite E. destruct (DatadogStatsClient.labels_of op) as [[|kv l]|]; cbn.
  - reflexivity.
  - eauto.
  - reflexivity.
Qed.

End FacadeProperties.

(** ** The stream label *)

(** [lstrip] takes its argument as a set of characters: on a label
    with no blank after the colon it goes on past the prefix.  The host
    builds no such label. *)
Lemma lstrip_goes_past_the_prefix :
  _stream_label {| shortlabel := "Stream:metrics" |} = "ics" /\
  spec_stream_label "Stream:metrics" = "metrics".
Proof. split; reflexivity. Qed.


(** ** Loading and construction *)

Lemma load_module_binds_datadog (datadog_installed : bool) (m : Module) :
  load_module datadog_installed = Ok m -> datadog m = Some tt.
Proof.
  destruct datadog_installed; cbn; intros H; [|discriminate].
  now inversion H.
Qed.

Section ConstructionProperties.
Context {Obj : Type} {base : MonitorBase Obj}.

Lemma init_without_datadog (host : str) (port : Z) (prefix : str) (rate : float)
    (kwargs : Obj) :
  __init__ {| datadog := None |} host port prefix rate kwargs
  = Raise (ImproperlyConfigured "DatadogStatsMonitor requires `pip install datadog`.").
Proof. reflexivity. Qed.

Lemma init_starts_without_client (m : Module) (host_ : str) (port_ : Z)
    (prefix_ : str) (rate_ : float) (kwargs : Obj) (self : DatadogStatsMonitor) :
  __init__ m host_ port_ prefix_ rate_ kwargs = Ok self ->
  cached_client self = None /\ host self = host_ /\ port self = port_ /\
  prefix self = prefix_ /\ rate self = rate_.
Proof.
  unfold __init__. destruct (datadog m); [|discriminate].
  destruct (Monitor_init kwargs); [|discriminate].
  intros H. inversion H. cbn. repeat split.
Qed.

(** C7: where the datadog library is not installed, the import at the
    top of the module raises [ImportError]; the guarded import and the
    check in [__init__] are never reached. *)
Theorem construct_without_datadog (host : str) (port : Z) (prefix : str)
    (rate : float) (kwargs : Obj) :
  construct false host port prefix rate kwargs = Raise ImportError.
Proof. reflexivity. Qed.

End ConstructionProperties.

(** ** Traces *)

Lemma skipn_app_exact {A} (l r : list A) : skipn (length l) (l ++ r)%list = r.
Proof. induction l as [|x l IH]; [reflexivity | exact IH]. Qed.

Lemma constructions_app {Obj} (l r : list (Event Obj)) :
  constructions (l ++ r)%list = (constructions l ++ constructions r)%list.
Proof.
  induction l as [|e l IH]; [reflexivity|].
  destruct e; cbn; now rewrite IH.
Qed.

Lemma calls_app {Obj} (l r : list (Event Obj)) :
  calls (l ++ r)%list = (calls l ++ calls r)%list.
Proof.
  induction l as [|e l IH]; [reflexivity|].
  destruct e; cbn; now rewrite IH.
Qed.

(** ** What every method does to the state *)

Section StepProperties.
Context {Obj : Type} {base : MonitorBase Obj}.

Lemma same_attributes_refl (a : DatadogStatsMonitor) : same_attributes a a.
Proof. repeat split. Qed.

Lemma same_attributes_trans (a b c : DatadogStatsMonitor) :
  same_attributes a b -> same_attributes b c -> same_attributes a c.
Proof.
  unfold same_attributes. intros (?&?&?&?) (?&?&?&?). repeat split; congruence.
Qed.

Lemma configured_same_attributes (a b : DatadogStatsMonitor) (c : DatadogStatsClient.t) :
  same_attributes a b -> configured b c -> configured a c.
Proof.
  unfold same_attributes, configured. intros (?&?&?&?) (?&?&?&?).
  repeat split; congruence.
Qed.

(** A step that keeps the sensor and adds events that build nothing. *)
Lemma Step_events (self self' : DatadogStatsMonitor) (w w' : World Obj)
    (evs : list (Event Obj)) :
  same_attributes self self' ->
  cached_client self' = cached_client self ->
  trace w' = (trace w ++ evs)%list ->
  constructions evs = [] ->
  Step (self, w) (self', w').
Proof.
  intros Ha Hc Ht He. split; [exact Ha|].
  exists evs. split; [exact Ht|]. left. now split.
Qed.

Lemma Step_refl (s : State) : Step s s.
Proof.
  destruct s as [self w].
  apply Step_events with (evs := []); auto using same_attributes_refl.
  cbn. now rewrite app_nil_r.
Qed.

Lemma Step_trans (s1 s2 s3 : State) : Step s1 s2 -> Step s2 s3 -> Step s1 s3.
Proof.
  intros (Ha & evs & Ht & Hc) (Ha' & evs' & Ht' & Hc').
  split; [eauto using same_attributes_trans|].
  exists (evs ++ evs')%list. split.
  - rewrite Ht', Ht. now rewrite app_assoc.
  - rewrite constructions_app.
    destruct Hc as [(Hk & Hn) | (Hn & c & Hs & Hcfg & Hb)];
      destruct Hc' as [(Hk' & Hn') | (Hn' & c' & Hs' & Hcfg' & Hb')].
    + left. split; [congruence | now rewrite Hn, Hn'].
    + right. split; [congruence|]. exists c'.
      repeat split; eauto using configured_same_attributes.
      * destruct Hcfg' as (?&?&?&?), Ha as (?&?&?&?). congruence.
      * destruct Hcfg' as (?&?&?&?), Ha as (?&?&?&?). congruence.
      * destruct Hcfg' as (?&?&?&?), Ha as (?&?&?&?). congruence.
      * destruct Hcfg' as (?&?&?&?), Ha as (?&?&?&?). congruence.
      * now rewrite Hn, Hb'.
    + right. split; [exact Hn|]. exists c.
      split; [congruence|]. split; [exact Hcfg|]. now rewrite Hb, Hn'.
    + congruence.
Qed.

Lemma Steps_ret {A} (a : A) : Steps (ret a).
Proof. intros s. apply Step_refl. Qed.

Lemma Steps_raise {A} (e : Exception) : Steps (@raise _ _ A e).
Proof. intros s. apply Step_refl. Qed.

Lemma Steps_bind {A B} (m : M A) (k : A -> M B) :
  Steps m -> (forall a, Steps (k a)) -> Steps (bind m k).
Proof.
  intros Hm Hk s. unfold bind.
  specialize (Hm s). destruct (m s) as [[a|e] s']; cbn in *.
  - eapply Step_trans; [exact Hm | apply Hk].
  - exact Hm.
Qed.

Lemma Steps_lift (f : World Obj -> World Obj) : Emits f -> Steps (lift f).
Proof.
  intros Hf [self w]. destruct (Hf w) as (n & c & E). cbn.
  apply Step_events with (evs := [Called n c]); auto using same_attributes_refl.
  now rewrite E.
Qed.

Lemma Steps_super (h : Hook Obj) : Steps (super h).
Proof.
  intros [self w]. unfold super.
  destruct (Monitor_hook h (monitor self)) as [r b]. cbn.
  apply Step_events with (evs := [Delegated h]); try reflexivity.
  repeat split.
Qed.

Lemma Steps_monotonic : Steps monotonic.
Proof.
  intros [self w]. cbn.
  apply Step_events with (evs := []); auto using same_attributes_refl.
  cbn. now rewrite app_nil_r.
Qed.

Lemma Steps_last_events_runtime : Steps last_events_runtime.
Proof.
  intros [self w]. unfold last_events_runtime.
  destruct (rev (events_runtime (monitor self))); apply Step_refl.
Qed.

Lemma Steps_client : Steps client.
Proof.
  intros [self w]. unfold client.
  destruct (cached_client self) as [c|] eqn:Hc; [apply Step_refl|].
  cbn. split; [repeat split|].
  eexists. split; [reflexivity|].
  right. split; [exact Hc|]. eexists. split; [reflexivity|].
  split; [repeat split | reflexivity].
Qed.

Lemma Emits_perform (c : DatadogStatsClient.t) (op : DatadogStatsClient.Operation) :
  Emits (DatadogStatsClient.perform (Obj := Obj) c op).
Proof. intros w. rewrite perform_sends. eauto. Qed.

Lemma Steps_on_client (method : DatadogStatsClient.t -> World Obj -> World Obj) :
  (forall c, Emits (method c)) -> Steps (on_client method).
Proof.
  intros H. apply Steps_bind; [apply Steps_client|].
  intros c. apply Steps_lift, H.
Qed.

Lemma Steps_for_each {A} (l : list A) (body : A -> M unit) :
  (forall x, Steps (body x)) -> Steps (for_each l body).
Proof.
  intros H. induction l as [|x l IH]; cbn.
  - apply Steps_ret.
  - apply Steps_bind; [apply H | intros _; exact IH].
Qed.

End StepProperties.

(** ** The hooks *)

Ltac emits := intros ?; eexists; eexists; reflexivity.

Ltac steps :=
  repeat first
    [ apply Steps_ret
    | apply Steps_super
    | apply Steps_client
    | apply Steps_monotonic
    | apply Steps_last_events_runtime
    | apply Steps_on_client; intros ?; emits
    | apply Steps_lift; emits
    | apply Steps_for_each; intros ?
    | apply Steps_bind; [| intros ?] ].

Section HookProperties.
Context {Obj : Type} {base : MonitorBase Obj}.

Lemma Steps_call (h : Hook Obj) : Steps (call h).
Proof.
  destruct h; unfold call, on_message_in, on_stream_event_in, on_stream_event_out,
    on_message_out, on_table_get, on_table_set, on_table_del, on_commit_completed,
    on_send_initiated, on_send_completed, count, on_tp_commit, track_tp_end_offset;
    steps.
Qed.

Lemma Step_calls_in_turn (hs : list (Hook Obj)) (s : State) :
  Step s (calls_in_turn hs s).
Proof.
  revert s. induction hs as [|h hs IH]; intros s; cbn.
  - apply Step_refl.
  - eapply Step_trans; [apply Steps_call | apply IH].
Qed.

Lemma added_of_trace {A} (m : M A) (s : State) (evs : list (Event Obj)) :
  trace (snd (snd (m s))) = (trace (snd s) ++ evs)%list -> added m s = evs.
Proof. intros H. unfold added. rewrite H. apply skipn_app_exact. Qed.

(** What follows a method cannot change the first event it added. *)
Lemma then_keeps_first {A B} (m : M A) (k : A -> M B) (s : State) (e : Event Obj) :
  (exists evs, trace (snd (snd (m s))) = (trace (snd s) ++ e :: evs)%list) ->
  (forall a, Steps (k a)) ->
  exists evs, trace (snd (snd (bind m k s))) = (trace (snd s) ++ e :: evs)%list.
Proof.
  intros (evs & H) Hk. unfold bind.
  destruct (m s) as [[a|x] s']; cbn in *; [|eauto].
  destruct (Hk a s') as (_ & evs' & Ht & _).
  exists (evs ++ evs')%list. rewrite Ht, H.
  now rewrite <- app_assoc.
Qed.

Lemma super_first (h : Hook Obj) (s : State) :
  exists evs, trace (snd (snd (super h s))) = (trace (snd s) ++ Delegated h :: evs)%list.
Proof.
  destruct s as [self w]. unfold super.
  destruct (Monitor_hook h (monitor self)) as [r b]. cbn. eauto.
Qed.

Lemma call_starts_with_delegation (h : Hook Obj) (s : State) :
  is_send_initiated h = false ->
  exists evs, added (call h) s = Delegated h :: evs.
Proof.
  intros Hh.
  assert (H : exists evs,
             trace (snd (snd (call h s))) = (trace (snd s) ++ Delegated h :: evs)%list).
  { destruct h; try discriminate Hh;
      unfold call, on_message_in, on_stream_event_in, on_stream_event_out,
        on_message_out, on_table_get, on_table_set, on_table_del, on_commit_completed,
        on_send_completed, count, on_tp_commit, track_tp_end_offset;
      (apply then_keeps_first; [apply then_keeps_first; [apply super_first|] |]);
      intros; steps. }
  destruct H as (evs & H). exists evs. now apply added_of_trace.
Qed.

Lemma send_initiated_trace (producer : Obj) (t : str) (keysize valsize : Z)
    (self : DatadogStatsMonitor) (w : World Obj) :
  exists pre c,
    added (on_send_initiated producer t keysize valsize) (self, w)
    = (pre ++ [Called (DogStatsd.handle (DatadogStatsClient.client c))
                      (sends c (DatadogStatsClient.Increment "topic_messages_sent" (Int 1)
                                  (Some [("topic", VStr t)])));
               Delegated (OnSendInitiated producer t keysize valsize)])%list /\
    only_builds pre /\
    cached_client (fst (snd (on_send_initiated producer t keysize valsize (self, w))))
    = Some c.
Proof.
  destruct (Monitor_hook (OnSendInitiated producer t keysize valsize) (monitor self))
    as [r b] eqn:Hh.
  destruct (cached_client self) as [c|] eqn:Hc.
  - exists [], c.
    unfold added, on_send_initiated, on_client, bind, client, lift, super.
    cbn. rewrite Hc. cbn. rewrite Hh. cbn.
    rewrite <- app_assoc, skipn_app_exact. unfold only_builds. auto.
  - exists [Constructed (DatadogStatsClient.client (fst (_new_datadog_stats_client self w)))],
      (fst (_new_datadog_stats_client self w)).
    unfold added, on_send_initiated, on_client, bind, client, lift, super.
    cbn. rewrite Hc. cbn. rewrite Hh. cbn.
    rewrite <- !app_assoc, skipn_app_exact. unfold only_builds. auto.
Qed.

End HookProperties.

Section DelegationOrder.
Context {Obj : Type} {base : MonitorBase Obj}.

Lemma added_then_ret {A B} (m : M A) (f : A -> B) (s : State) :
  added (bind m (fun a => ret (f a))) s = added m s.
Proof.
  unfold added, bind, ret. destruct (m s) as [[a|e] s']; reflexivity.
Qed.

Lemma delegation_first_after_builds (pre rest : list (Event Obj)) (n : nat)
    (c : DogStatsd.Call) :
  only_builds pre -> delegation_first (pre ++ Called n c :: rest)%list = false.
Proof.
  unfold only_builds. induction pre as [|e pre IH]; [reflexivity|].
  destruct e; cbn; intros H.
  - destruct (constructions pre); discriminate H.
  - apply IH. injection H as H. exact H.
  - destruct (constructions pre); discriminate H.
Qed.

(** C2, as amended: every hook but [on_send_initiated] delegates to
    the base class before anything else, so before any metric call;
    [on_send_initiated] makes its metric call first, after at most
    building the client, and delegates last. *)
Theorem delegation_order (h : Hook Obj) (s : State) :
  if is_send_initiated h
  then delegation_first (added (call h) s) = false /\
       exists pre n c,
         added (call h) s = (pre ++ [Called n c; Delegated h])%list /\ only_builds pre
  else delegation_first (added (call h) s) = true /\
       exists evs, added (call h) s = Delegated h :: evs.
Proof.
  destruct (is_send_initiated h) eqn:Hh.
  - destruct h; try discriminate Hh. destruct s as [self w].
    unfold call. rewrite added_then_ret.
    destruct (send_initiated_trace producer topic0 keysize valsize self w)
      as (pre & c & E & Hpre & _).
    rewrite E. split; [now apply delegation_first_after_builds|].
    eauto.
  - destruct (call_starts_with_delegation h s Hh) as (evs & E).
    rewrite E. split; [reflexivity | eauto].
Qed.

(** C6: [on_send_initiated] makes one metric call, an increment of
    [topic_messages_sent] by 1 whose labels are the one pair
    [topic: t], which reaches the transport as the one tag of that
    pair. *)
Theorem send_initiated_labels_topic_only (producer : Obj) (t : str)
    (keysize valsize : Z) (self : DatadogStatsMonitor) (w : World Obj) :
  exists c,
    cached_client (fst (snd (on_send_initiated producer t keysize valsize (self, w))))
      = Some c /\
    calls (added (on_send_initiated producer t keysize valsize) (self, w))
      = [sends c (DatadogStatsClient.Increment "topic_messages_sent" (Int 1)
                    (Some [("topic", VStr t)]))] /\
    DogStatsd.tags_of
      (sends c (DatadogStatsClient.Increment "topic_messages_sent" (Int 1)
                  (Some [("topic", VStr t)])))
      = Some [DatadogStatsClient.sanitize c (VStr "topic") ++ ":"
              ++ DatadogStatsClient.sanitize c (VStr t)].
Proof.
  destruct (send_initiated_trace producer t keysize valsize self w)
    as (pre & c & E & Hpre & Hc).
  exists c. split; [exact Hc|]. split; [|reflexivity].
  rewrite E, calls_app. unfold only_builds in Hpre. rewrite <- Hpre.
  clear. induction (constructions pre) as [|d l IH]; [reflexivity | exact IH].
Qed.

End DelegationOrder.

Section EmissionProperties.
Context {Obj : Type} {base : MonitorBase Obj}.

Lemma rev_last {A} (l : list A) (x : A) : rev (l ++ [x])%list = x :: rev l.
Proof. now rewrite rev_app_distr. Qed.

Lemma rev_nonempty {A} (x : A) (l : list A) : exists y l', rev (x :: l) = y :: l'.
Proof.
  destruct (rev (x :: l)) as [|y l'] eqn:E; [|eauto].
  apply (f_equal (@rev A)) in E. rewrite rev_involutive in E. discriminate E.
Qed.

(** [on_message_in] where the base class returns: the state it ends
    in and the metric calls it added. *)
Lemma message_in_run (tp : TP) (offset : Z) (message : Obj)
    (self : DatadogStatsMonitor) (w : World Obj) (r : Obj) (b : Monitor) :
  Monitor_hook (OnMessageIn tp offset message) (monitor self) = (Ok r, b) ->
  let labels := Some [("topic", VStr (topic tp)); ("partition", VInt (partition tp))] in
  let c := the_client (self, w) in
  cached_client (fst (snd (on_message_in tp offset message (self, w)))) = Some c /\
  calls (added (on_message_in tp offset message) (self, w))
  = [sends c (DatadogStatsClient.Increment "messages_received" (Int 1) labels);
     sends c (DatadogStatsClient.Increment "messages_active" (Int 1) labels);
     sends c (DatadogStatsClient.Gauge "read_offset" (Int offset) labels)].
Proof.
  intros Hh labels c. subst labels c.
  unfold the_client, added, on_message_in, on_client, bind, client, lift, super. cbn.
  rewrite Hh. cbn.
  destruct (cached_client self) as [c|] eqn:Hc; cbn; repeat (rewrite Hc; cbn);
    rewrite <- !app_assoc, skipn_app_exact; auto.
Qed.

(** [on_stream_event_out] where the base class returns: the result
    hangs on the history the base class leaves. *)
Lemma stream_event_out_run (tp : TP) (offset : Z) (stream : StreamT) (event : Obj)
    (self : DatadogStatsMonitor) (w : World Obj) (r : Obj) (b : Monitor) :
  Monitor_hook (OnStreamEventOut tp offset stream event) (monitor self) = (Ok r, b) ->
  let labels := Some [("topic", VStr (topic tp)); ("partition", VInt (partition tp));
                      ("stream", VStr (_stream_label stream))] in
  let c := the_client (self, w) in
  let run := on_stream_event_out tp offset stream event in
  cached_client (fst (snd (run (self, w)))) = Some c /\
  match rev (events_runtime b) with
  | [] =>
      fst (run (self, w)) = Raise IndexError /\
      calls (added run (self, w))
      = [sends c (DatadogStatsClient.Decrement "events_active" (Float 1) labels)]
  | runtime :: _ =>
      fst (run (self, w)) = Ok tt /\
      calls (added run (self, w))
      = [sends c (DatadogStatsClient.Decrement "events_active" (Float 1) labels);
         sends c (DatadogStatsClient.Timing "events_runtime"
                    (Float (runtime * 1000)%float) labels)]
  end.
Proof.
  intros Hh labels c run. subst labels c run.
  unfold the_client, added, on_stream_event_out, on_client, bind, client, lift, super,
    last_events_runtime.
  cbn. rewrite Hh. cbn.
  destruct (cached_client self) as [c|] eqn:Hc; cbn; repeat (rewrite Hc; cbn);
    destruct (rev (events_runtime b)) as [|runtime rest]; cbn;
    rewrite <- ?app_assoc, skipn_app_exact; auto.
Qed.

(** C4: where the base class returns, [on_message_in] makes exactly
    three metric calls on the sensor's client: an increment of
    [messages_received] by 1, an increment of [messages_active] by 1
    and a gauge [read_offset] of the offset, each with the labels
    [topic] and [partition] of the topic-partition and no other. *)
Theorem message_in_emits_three (tp : TP) (offset : Z) (message : Obj)
    (self : DatadogStatsMonitor) (w : World Obj) (r : Obj) (b : Monitor) :
  Monitor_hook (OnMessageIn tp offset message) (monitor self) = (Ok r, b) ->
  exists c,
    cached_client (fst (snd (on_message_in tp offset message (self, w)))) = Some c /\
    calls (added (on_message_in tp offset message) (self, w))
    = [sends c (DatadogStatsClient.Increment "messages_received" (Int 1)
                  (Some [("topic", VStr (topic tp)); ("partition", VInt (partition tp))]));
       sends c (DatadogStatsClient.Increment "messages_active" (Int 1)
                  (Some [("topic", VStr (topic tp)); ("partition", VInt (partition tp))]));
       sends c (DatadogStatsClient.Gauge "read_offset" (Int offset)
                  (Some [("topic", VStr (topic tp)); ("partition", VInt (partition tp))]))].
Proof.
  intros Hh. exists (the_client (self, w)).
  exact (message_in_run tp offset message self w r b Hh).
Qed.

(** C5: where the base class returns and leaves a history of event
    runtimes that ends with [runtime], [on_stream_event_out] makes a
    decrement of [events_active] by 1 and a timing [events_runtime] of
    [runtime * 1000], both with the labels [topic], [partition] and
    [stream], the last being the stream label the sensor derives. *)
Theorem stream_event_out_emits (tp : TP) (offset : Z) (stream : StreamT) (event : Obj)
    (self : DatadogStatsMonitor) (w : World Obj) (r : Obj) (b : Monitor)
    (history : list float) (runtime : float) :
  Monitor_hook (OnStreamEventOut tp offset stream event) (monitor self) = (Ok r, b) ->
  events_runtime b = (history ++ [runtime])%list ->
  exists c,
    cached_client (fst (snd (on_stream_event_out tp offset stream event (self, w))))
      = Some c /\
    calls (added (on_stream_event_out tp offset stream event) (self, w))
    = [sends c (DatadogStatsClient.Decrement "events_active" (Float 1)
                  (Some [("topic", VStr (topic tp)); ("partition", VInt (partition tp));
                         ("stream", VStr (_stream_label stream))]));
       sends c (DatadogStatsClient.Timing "events_runtime" (Float (runtime * 1000)%float)
                  (Some [("topic", VStr (topic tp)); ("partition", VInt (partition tp));
                         ("stream", VStr (_stream_label stream))]))].
Proof.
  intros Hh Hr. exists (the_client (self, w)).
  pose proof (stream_event_out_run tp offset stream event self w r b Hh) as H.
  cbv zeta in H. rewrite Hr, rev_last in H.
  destruct H as (Hc & _ & Hcalls). split; assumption.
Qed.

(** C10: where the base class returns, [on_stream_event_out] returns
    when the history of event runtimes it leaves is not empty, and
    raises [IndexError] on reading its last element when it is. *)
Theorem stream_event_out_needs_history (tp : TP) (offset : Z) (stream : StreamT)
    (event : Obj) (self : DatadogStatsMonitor) (w : World Obj) (r : Obj) (b : Monitor) :
  Monitor_hook (OnStreamEventOut tp offset stream event) (monitor self) = (Ok r, b) ->
  match events_runtime b with
  | [] => fst (on_stream_event_out tp offset stream event (self, w)) = Raise IndexError
  | _ :: _ => fst (on_stream_event_out tp offset stream event (self, w)) = Ok tt
  end.
Proof.
  intros Hh.
  pose proof (stream_event_out_run tp offset stream event self w r b Hh) as H.
  cbv zeta in H. destruct H as (_ & H).
  destruct (events_runtime b) as [|x l].
  - cbn in H. apply H.
  - destruct (rev_nonempty x l) as (y & l' & E). rewrite E in H. apply H.
Qed.

End EmissionProperties.

(** ** The client *)

Section ClientProperties.
Context {Obj : Type} {base : MonitorBase Obj}.

Lemma client_returns_cached (s : State) :
  fst (client s) = Ok (the_client s) /\
  cached_client (fst (snd (client s))) = Some (the_client s).
Proof.
  destruct s as [self w]. unfold client, the_client. cbn.
  destruct (cached_client self) as [c|] eqn:Hc; cbn; auto.
Qed.

Lemma client_when_cached (s : State) (c : DatadogStatsClient.t) :
  cached_client (fst s) = Some c -> client s = (Ok c, s).
Proof.
  destruct s as [self w]. cbn. intros H. now rewrite H.
Qed.

(** From a state with no client, a state reached by steps has either
    no client and no transport built, or a client built from the
    attributes and its transport as the only one built. *)
Lemma Step_from_empty (s s' : State) :
  cached_client (fst s) = None ->
  Step s s' ->
  match cached_client (fst s') with
  | None => constructions (trace (snd s')) = constructions (trace (snd s))
  | Some c =>
      configured (fst s) c /\
      constructions (trace (snd s'))
      = (constructions (trace (snd s)) ++ [DatadogStatsClient.client c])%list
  end.
Proof.
  intros Hn (_ & evs & Ht & [(Hk & He) | (_ & c & Hs & Hcfg & He)]);
    rewrite Ht, constructions_app, He.
  - rewrite Hk, Hn. apply app_nil_r.
  - rewrite Hs. now split.
Qed.

(** From a state with a client, steps keep the client. *)
Lemma Step_keeps_client (s s' : State) (c : DatadogStatsClient.t) :
  cached_client (fst s) = Some c ->
  Step s s' ->
  cached_client (fst s') = Some c /\
  constructions (trace (snd s')) = constructions (trace (snd s)).
Proof.
  intros Hc (_ & evs & Ht & [(Hk & He) | (Hn & _)]); [|congruence].
  split; [congruence|].
  rewrite Ht, constructions_app, He. apply app_nil_r.
Qed.

(** C9: a sensor comes out of [__init__] with no client; whatever
    hooks the host then calls, as long as there is no client no
    transport has been built, and once there is one its transport is
    the only one built; a read of [client] then returns a client [c]
    made for the host, port, prefix and rate given to [__init__], and
    after any further hooks a read returns the same [c] and leaves
    the state as it is, so builds nothing. *)
Theorem client_is_built_once (m : Module) (host_ : str) (port_ : Z) (prefix_ : str)
    (rate_ : float) (kwargs : Obj) (self : DatadogStatsMonitor) (w : World Obj)
    (hs : list (Hook Obj)) :
  __init__ m host_ port_ prefix_ rate_ kwargs = Ok self ->
  let s := calls_in_turn hs (self, w) in
  cached_client self = None /\
  match cached_client (fst s) with
  | None => constructions (trace (snd s)) = constructions (trace w)
  | Some c =>
      constructions (trace (snd s))
      = (constructions (trace w) ++ [DatadogStatsClient.client c])%list
  end /\
  exists c,
    fst (client s) = Ok c /\
    DogStatsd.host (DatadogStatsClient.client c) = host_ /\
    DogStatsd.port (DatadogStatsClient.client c) = port_ /\
    DogStatsd.namespace (DatadogStatsClient.client c) = prefix_ /\
    DatadogStatsClient.rate c = rate_ /\
    constructions (trace (snd (snd (client s))))
    = (constructions (trace w) ++ [DatadogStatsClient.client c])%list /\
    forall hs', client (calls_in_turn hs' (snd (client s)))
                = (Ok c, calls_in_turn hs' (snd (client s))).
Proof.
  intros Hinit s.
  destruct (init_starts_without_client _ _ _ _ _ _ _ Hinit)
    as (Hn & Hhost & Hport & Hprefix & Hrate).
  split; [exact Hn|].
  assert (Hs : Step (self, w) s) by apply Step_calls_in_turn.
  split.
  - pose proof (Step_from_empty (self, w) s Hn Hs) as H. cbn in H.
    destruct (cached_client (fst s)); [apply H | exact H].
  - destruct (client_returns_cached s) as (Hr & Hc).
    exists (the_client s). split; [exact Hr|].
    assert (Hs' : Step (self, w) (snd (client s)))
      by (eapply Step_trans; [exact Hs | apply Steps_client]).
    pose proof (Step_from_empty (self, w) _ Hn Hs') as H. rewrite Hc in H. cbn in H.
    destruct H as ((H1 & H2 & H3 & H4) & Hb).
    do 4 (split; [congruence|]).
    split; [exact Hb|].
    intros hs'. apply client_when_cached.
    eapply Step_keeps_client; [exact Hc | apply Step_calls_in_turn].
Qed.

End ClientProperties.

(** * Examples on the small host *)

(** C2: the claim fails on [on_send_initiated]: run on the new sensor
    with topic ["payments"], its metric call comes before the
    delegation. *)
Lemma send_initiated_emits_before_delegating :
  added (call (OnSendInitiated None "payments" 1 2)) SmallHost.start
  = [Constructed {| DogStatsd.handle := 0; DogStatsd.host := "localhost";
                    DogStatsd.port := 8125; DogStatsd.namespace := "faust-app";
                    DogStatsd.kwargs := [] |};
     Called 0 (DogStatsd.increment "topic_messages_sent" (Int 1)
                 (Some ["topic:payments"]) 1%float);
     Delegated (OnSendInitiated None "payments" 1 2)] /\
  delegation_first (added (call (OnSendInitiated None "payments" 1 2)) SmallHost.start)
  = false.
Proof. split; reflexivity. Qed.

(** [on_message_in] for partition 2 of [orders] at offset 42, on the new
    sensor. *)
Lemma message_in_emits_three_witness :
  exists c,
    cached_client
      (fst (snd (on_message_in SmallHost.orders 42 None SmallHost.start))) = Some c /\
    calls (added (on_message_in SmallHost.orders 42 None) SmallHost.start)
    = [sends c (DatadogStatsClient.Increment "messages_received" (Int 1)
                  (Some [("topic", VStr "orders"); ("partition", VInt 2)]));
       sends c (DatadogStatsClient.Increment "messages_active" (Int 1)
                  (Some [("topic", VStr "orders"); ("partition", VInt 2)]));
       sends c (DatadogStatsClient.Gauge "read_offset" (Int 42)
                  (Some [("topic", VStr "orders"); ("partition", VInt 2)]))].
Proof.
  apply (message_in_emits_three SmallHost.orders 42 None SmallHost.sensor
           SmallHost.world None []).
  reflexivity.
Defined.

(** [on_stream_event_out] for an event the host timed at a quarter of a
    second: the timing is 250. *)
Lemma stream_event_out_emits_witness :
  exists c,
    cached_client
      (fst (snd (on_stream_event_out SmallHost.orders 42 SmallHost.withdrawals
                   (Some 0.25%float) SmallHost.start))) = Some c /\
    calls (added (on_stream_event_out SmallHost.orders 42 SmallHost.withdrawals
                    (Some 0.25%float)) SmallHost.start)
    = [sends c (DatadogStatsClient.Decrement "events_active" (Float 1)
                  (Some [("topic", VStr "orders"); ("partition", VInt 2);
                         ("stream", VStr "topic_withdrawals")]));
       sends c (DatadogStatsClient.Timing "events_runtime" (Float 250)
                  (Some [("topic", VStr "orders"); ("partition", VInt 2);
                         ("stream", VStr "topic_withdrawals")]))].
Proof.
  apply (stream_event_out_emits SmallHost.orders 42 SmallHost.withdrawals
           (Some 0.25%float) SmallHost.sensor SmallHost.world None [0.25%float]
           [] 0.25%float); reflexivity.
Defined.

(** [on_stream_event_out] for an event the host has no runtime for, the
    history being empty, and for one it timed. *)
Lemma stream_event_out_needs_history_witness :
  fst (on_stream_event_out SmallHost.orders 42 SmallHost.withdrawals None SmallHost.start)
  = Raise IndexError /\
  fst (on_stream_event_out SmallHost.orders 42 SmallHost.withdrawals (Some 0.25%float)
         SmallHost.start)
  = Ok tt.
Proof.
  split.
  - apply (stream_event_out_needs_history SmallHost.orders 42 SmallHost.withdrawals None
             SmallHost.sensor SmallHost.world None []).
    reflexivity.
  - apply (stream_event_out_needs_history SmallHost.orders 42 SmallHost.withdrawals
             (Some 0.25%float) SmallHost.sensor SmallHost.world None [0.25%float]).
    reflexivity.
Defined.

(** The sensor built with the default arguments, after two hooks. *)
Lemma client_is_built_once_witness :
  let s := calls_in_turn [OnMessageIn SmallHost.orders 42 None;
                          OnSendInitiated None "payments" 1 2]
             (SmallHost.sensor, SmallHost.world) in
  cached_client SmallHost.sensor = None /\
  match cached_client (fst s) with
  | None => constructions (trace (snd s)) = constructions (trace SmallHost.world)
  | Some c =>
      constructions (trace (snd s))
      = (constructions (trace SmallHost.world) ++ [DatadogStatsClient.client c])%list
  end /\
  exists c,
    fst (client s) = Ok c /\
    DogStatsd.host (DatadogStatsClient.client c) = "localhost" /\
    DogStatsd.port (DatadogStatsClient.client c) = 8125 /\
    DogStatsd.namespace (DatadogStatsClient.client c) = "faust-app" /\
    DatadogStatsClient.rate c = 1%float /\
    constructions (trace (snd (snd (client s))))
    = (constructions (trace SmallHost.world) ++ [DatadogStatsClient.client c])%list /\
    forall hs', client (calls_in_turn hs' (snd (client s)))
                = (Ok c, calls_in_turn hs' (snd (client s))).
Proof.
  apply (client_is_built_once {| datadog := Some tt |} "localhost" 8125 "faust-app"
           1%float None SmallHost.sensor SmallHost.world).
  reflexivity.
Defined.

(** * Further properties *)

(** ** Normalized names and stream labels *)

Ltac by_cases_on_char c :=
  destruct c as [[] [] [] [] [] [] [] []]; reflexivity.

Lemma normalize_class_separator (c : ascii) :
  class_matches {| negated := false; items := [Chr "<"; Chr ">"; Chr ":"; Whitespace] |} c
  = separator c.
Proof.
  unfold class_matches, separator. cbn.
  now rewrite orb_false_r, !orb_assoc.
Qed.

Lemma sub_many_no_separator (in_run : bool) (s : str) :
  all_chars (fun c => negb (separator c))
    (sub_many {| negated := false; items := [Chr "<"; Chr ">"; Chr ":"; Whitespace] |}
       "_" in_run s) = true.
Proof.
  revert in_run. induction s as [|c s IH]; intros in_run; [reflexivity|].
  cbn [sub_many]. rewrite normalize_class_separator.
  destruct (separator c) eqn:E.
  - destruct in_run; [apply IH|]. cbn. apply IH.
  - cbn. rewrite E. apply IH.
Qed.

Lemma sub_many_clean (repl : str) (in_run : bool) (s : str) :
  all_chars (fun c => negb (separator c)) s = true ->
  sub_many {| negated := false; items := [Chr "<"; Chr ">"; Chr ":"; Whitespace] |}
    repl in_run s = s.
Proof.
  revert in_run. induction s as [|c s IH]; intros in_run; [reflexivity|].
  cbn [all_chars sub_many]. rewrite normalize_class_separator.
  intros H. apply andb_true_iff in H. destruct H as (Hc & Hs).
  destruct (separator c); [discriminate Hc|].
  now rewrite IH.
Qed.


Lemma all_chars_lstrip (p : ascii -> bool) (chars s : str) :
  all_chars p s = true -> all_chars p (lstrip chars s) = true.
Proof.
  induction s as [|c s IH]; [reflexivity|].
  cbn. intros H. destruct (mem c chars); [|exact H].
  apply IH. apply andb_true_iff in H. apply H.
Qed.

Lemma all_chars_rstrip (p : ascii -> bool) (chars s : str) :
  all_chars p s = true -> all_chars p (rstrip chars s) = true.
Proof.
  induction s as [|c s IH]; [reflexivity|].
  cbn. intros H. apply andb_true_iff in H. destruct H as (Hc & Hs).
  specialize (IH Hs).
  destruct (rstrip chars s) as [|d r].
  - destruct (mem c chars); [reflexivity|]. cbn. now rewrite Hc.
  - cbn [all_chars] in *. now rewrite Hc, IH.
Qed.

Lemma mem_eqb (c d : ascii) (chars : str) :
  Ascii.eqb d c = true -> mem c chars = true -> mem d chars = true.
Proof. intros E H. apply Ascii.eqb_eq in E. now subst. Qed.

Lemma first_is_lstrip (c : ascii) (chars s : str) :
  mem c chars = true -> first_is c (lstrip chars s) = false.
Proof.
  intros Hc. induction s as [|d s IH]; [reflexivity|].
  cbn. destruct (mem d chars) eqn:Hd; [exact IH|].
  cbn. destruct (Ascii.eqb d c) eqn:E; [|reflexivity].
  rewrite (mem_eqb c d chars E Hc) in Hd. discriminate Hd.
Qed.

Lemma first_is_rstrip (c : ascii) (chars s : str) :
  first_is c s = false -> first_is c (rstrip chars s) = false.
Proof.
  destruct s as [|d s]; [reflexivity|].
  cbn. intros H. destruct (rstrip chars s).
  - destruct (mem d chars); [reflexivity | exact H].
  - exact H.
Qed.

Lemma last_is_rstrip (c : ascii) (chars s : str) :
  mem c chars = true -> last_is c (rstrip chars s) = false.
Proof.
  intros Hc. induction s as [|d s IH]; [reflexivity|].
  cbn [rstrip]. destruct (rstrip chars s) as [|e r].
  - destruct (mem d chars) eqn:Hd; [reflexivity|].
    cbn. destruct (Ascii.eqb d c) eqn:E; [|reflexivity].
    rewrite (mem_eqb c d chars E Hc) in Hd. discriminate Hd.
  - exact IH.
Qed.

Lemma lower_char_idempotent (c : ascii) : lower_char (lower_char c) = lower_char c.
Proof. by_cases_on_char c. Qed.

Lemma lower_char_separator (c : ascii) : separator (lower_char c) = separator c.
Proof. by_cases_on_char c. Qed.

Lemma lower_char_underscore (c : ascii) :
  Ascii.eqb (lower_char c) "_" = Ascii.eqb c "_".
Proof. by_cases_on_char c. Qed.

Lemma lower_idempotent (s : str) : lower (lower s) = lower s.
Proof.
  induction s as [|c s IH]; [reflexivity|].
  cbn. now rewrite lower_char_idempotent, IH.
Qed.

Lemma all_chars_lower (s : str) :
  all_chars (fun c => negb (separator c)) (lower s)
  = all_chars (fun c => negb (separator c)) s.
Proof.
  induction s as [|c s IH]; [reflexivity|].
  cbn. now rewrite lower_char_separator, IH.
Qed.

Lemma first_is_lower (s : str) : first_is "_" (lower s) = first_is "_" s.
Proof. destruct s as [|c s]; [reflexivity | apply lower_char_underscore]. Qed.

Lemma last_is_lower (s : str) : last_is "_" (lower s) = last_is "_" s.
Proof.
  induction s as [|c s IH]; [reflexivity|].
  destruct s as [|d s]; [apply lower_char_underscore | exact IH].
Qed.

(** X1: a normalized name holds none of the characters the pattern
    replaces: no [<], [>], colon or whitespace. *)
Theorem normalize_leaves_no_separator (name : str) :
  all_chars (fun c => negb (separator c)) (_normalize name) = true.
Proof. apply sub_many_no_separator. Qed.

(** X2: normalizing twice is normalizing once. *)
Theorem normalize_idempotent (name : str) :
  _normalize (_normalize name) = _normalize name.
Proof.
  unfold _normalize at 1. unfold _normalize_with, Pattern_sub, RE_NORMALIZE.
  apply sub_many_clean. apply (sub_many_no_separator false name).
Qed.


(** X4: the stream label holds no [<], [>], colon or whitespace,
    whatever the label of the stream. *)
Theorem stream_label_has_no_separator (stream : StreamT) :
  all_chars (fun c => negb (separator c)) (_stream_label stream) = true.
Proof.
  unfold _stream_label, strip.
  rewrite all_chars_lower.
  apply all_chars_rstrip, all_chars_lstrip.
  apply (sub_many_no_separator false (lstrip "Stream:" (shortlabel stream))).
Qed.

(** X5: the stream label neither begins nor ends with an underscore,
    and lower-casing leaves it as it is. *)
Theorem stream_label_trimmed_and_lower (stream : StreamT) :
  first_is "_" (_stream_label stream) = false /\
  last_is "_" (_stream_label stream) = false /\
  lower (_stream_label stream) = _stream_label stream.
Proof.
  unfold _stream_label, strip. split; [|split].
  - rewrite first_is_lower. apply first_is_rstrip, first_is_lstrip. reflexivity.
  - rewrite last_is_lower. apply last_is_rstrip. reflexivity.
  - apply lower_idempotent.
Qed.

(** ** Sanitized labels and tags *)

Lemma replace_outside_clean (s : str) : word_only s = true -> replace_outside s = s.
Proof.
  induction s as [|c s IH]; [reflexivity|].
  cbn. intros H. apply andb_true_iff in H. destruct H as (Hc & Hs).
  now rewrite Hc, IH.
Qed.

Lemma word_only_digits (d : Decimal.uint) :
  word_only (NilEmpty.string_of_uint d) = true.
Proof. induction d; cbn; auto. Qed.

Lemma word_only_nonnegative (z : Z) : 0 <= z -> word_only (py_str (VInt z)) = true.
Proof.
  intros H. destruct z as [|p|p]; [reflexivity| |lia].
  cbn. destruct (Pos.to_uint p) eqn:E; try reflexivity;
    rewrite <- E; cbn; rewrite E; apply (word_only_digits (_ u)).
Qed.

Lemma all_chars_app (p : ascii -> bool) (a b : str) :
  all_chars p (a ++ b) = all_chars p a && all_chars p b.
Proof.
  induction a as [|c a IH]; [reflexivity|].
  cbn. now rewrite IH, andb_assoc.
Qed.

Lemma count_char_app (c : ascii) (a b : str) :
  count_char c (a ++ b) = (count_char c a + count_char c b)%nat.
Proof.
  induction a as [|d a IH]; [reflexivity|].
  cbn. rewrite IH. lia.
Qed.

Lemma word_only_no_colon (s : str) :
  word_only s = true ->
  all_chars (fun c => word_char c || Ascii.eqb c ":") s = true /\ count_char ":" s = O.
Proof.
  induction s as [|c s IH]; [split; reflexivity|].
  cbn. intros H. apply andb_true_iff in H. destruct H as (Hc & Hs).
  destruct (IH Hs) as (Ha & Hn). rewrite Hc, Ha, Hn.
  destruct (Ascii.eqb c ":") eqn:E; [|split; reflexivity].
  apply Ascii.eqb_eq in E. subst c. discriminate Hc.
Qed.

Lemma tag_ok_clean_tag (kv : str * Value) : tag_ok (clean_tag kv) = true.
Proof.
  unfold tag_ok, clean_tag.
  destruct (word_only_no_colon _ (word_only_replace_outside (fst kv))) as (Ha & Hn).
  destruct (word_only_no_colon _ (word_only_replace_outside (py_str (snd kv))))
    as (Ha' & Hn').
  rewrite !all_chars_app, !count_char_app, Ha, Ha', Hn, Hn'. reflexivity.
Qed.

Lemma encode_constructed {Obj} (host : str) (port : Z) (prefix : str) (rate : float)
    (kwargs : Labels) (w0 : World Obj) (labels : option Labels) :
  DatadogStatsClient._encode_labels
    (fst (DatadogStatsClient.__init__ host port prefix rate kwargs w0)) labels
  = if truthy labels then Some (map clean_tag (dict_items labels)) else None.
Proof.
  unfold DatadogStatsClient._encode_labels.
  destruct (truthy labels); [|reflexivity].
  f_equal. apply map_ext. intros kv. unfold clean_tag.
  now rewrite !sanitize_constructed.
Qed.

Lemma encoded_tags_ok {Obj} (host : str) (port : Z) (prefix : str) (rate : float)
    (kwargs : Labels) (w0 : World Obj) (labels : option Labels) :
  match DatadogStatsClient._encode_labels
          (fst (DatadogStatsClient.__init__ host port prefix rate kwargs w0)) labels with
  | None => true
  | Some tags => forallb tag_ok tags
  end = true.
Proof.
  rewrite encode_constructed. destruct (truthy labels); [|reflexivity].
  apply forallb_forall. intros tag Hin. apply in_map_iff in Hin.
  destruct Hin as (kv & E & _). subst tag. apply tag_ok_clean_tag.
Qed.

Section SanitizeProperties.
Context {Obj : Type}.

(** X6: sanitizing keeps the length of the text and, done twice, gives
    what it gives done once. *)
Theorem sanitize_idempotent (host : str) (port : Z) (prefix : str) (rate : float)
    (kwargs : Labels) (w0 : World Obj) (v : Value) :
  let c := fst (DatadogStatsClient.__init__ host port prefix rate kwargs w0) in
  DatadogStatsClient.sanitize c (VStr (DatadogStatsClient.sanitize c v))
    = DatadogStatsClient.sanitize c v /\
  String.length (DatadogStatsClient.sanitize c v) = String.length (py_str v).
Proof.
  intros c. unfold c. rewrite !sanitize_constructed. cbn [py_str]. split.
  - apply replace_outside_clean, word_only_replace_outside.
  - apply length_replace_outside.
Qed.

(** X7: a key or value made of letters, digits and underscores only
    reaches the transport unchanged. *)
Theorem sanitize_keeps_clean_text (host : str) (port : Z) (prefix : str) (rate : float)
    (kwargs : Labels) (w0 : World Obj) (s : str) :
  word_only s = true ->
  DatadogStatsClient.sanitize
    (fst (DatadogStatsClient.__init__ host port prefix rate kwargs w0)) (VStr s) = s.
Proof.
  intros H. rewrite sanitize_constructed. now apply replace_outside_clean.
Qed.

(** X8: a partition number that is not negative reaches the transport
    as its decimal digits. *)
Theorem sanitize_keeps_nonnegative_numbers (host : str) (port : Z) (prefix : str)
    (rate : float) (kwargs : Labels) (w0 : World Obj) (z : Z) :
  0 <= z ->
  DatadogStatsClient.sanitize
    (fst (DatadogStatsClient.__init__ host port prefix rate kwargs w0)) (VInt z)
  = py_str (VInt z).
Proof.
  intros H. rewrite sanitize_constructed.
  now apply replace_outside_clean, word_only_nonnegative.
Qed.

(** X9: whatever the labels, every tag a facade operation hands to the
    transport is word characters, one colon, word characters: the key
    and the value can be read back from it without doubt. *)
Theorem facade_tags_well_formed (host : str) (port : Z) (prefix : str) (rate : float)
    (kwargs : Labels) (w0 : World Obj) (op : DatadogStatsClient.Operation) :
  tags_ok (sends (fst (DatadogStatsClient.__init__ host port prefix rate kwargs w0)) op)
  = true.
Proof.
  unfold tags_ok.
  assert (E : forall c, DogStatsd.tags_of (sends c op)
                = DatadogStatsClient._encode_labels c (DatadogStatsClient.labels_of op))
    by (intros c; destruct op; reflexivity).
  rewrite E. apply encoded_tags_ok.
Qed.

End SanitizeProperties.

(** X10: the labels of a hook are built piece by piece: [topic] and
    [partition] for a topic-partition, [stream] for a stream, [table]
    for a table, in this order and nothing else; with none of the three
    the label set is empty. *)
Theorem format_label_keys (tp : option TP) (stream : option StreamT)
    (table : option CollectionT) :
  keys (_format_label tp stream table)
  = ((match tp with Some _ => ["topic"; "partition"] | None => [] end)
     ++ (match stream with Some _ => ["stream"] | None => [] end)
     ++ (match table with Some _ => ["table"] | None => [] end))%list.
Proof. destruct tp, stream, table; reflexivity. Qed.

(** ** One client for all the calls *)

Ltac emits_by :=
  eexists; split;
  [reflexivity | split; [reflexivity | split; [reflexivity | eexists; reflexivity]]].

Section SoundProperties.
Context {Obj : Type} {base : MonitorBase Obj}.

Lemma the_client_ext (s s' : State) :
  cached_client (fst s') = cached_client (fst s) ->
  same_attributes (fst s) (fst s') ->
  allocated (snd s') = allocated (snd s) ->
  the_client s' = the_client s.
Proof.
  destruct s as [self w], s' as [self' w']. unfold the_client. cbn.
  intros Hc (Hh & Hp & Hx & Hr) Ha. rewrite Hc.
  destruct (cached_client self); [reflexivity|].
  now rewrite Hh, Hp, Hx, Hr, Ha.
Qed.

Lemma Sound_refl (s : State) : Sound s s.
Proof.
  split; [reflexivity|]. split; [now left|].
  exists []. split; [now rewrite app_nil_r | constructor].
Qed.

Lemma Sound_trans (s1 s2 s3 : State) : Sound s1 s2 -> Sound s2 s3 -> Sound s1 s3.
Proof.
  intros (Hc & Hk & evs & Ht & Hf) (Hc' & Hk' & evs' & Ht' & Hf').
  split; [congruence|]. split.
  - destruct Hk' as [Hk' | Hk']; [|right; congruence].
    destruct Hk as [Hk | Hk]; [left | right]; congruence.
  - exists (evs ++ evs')%list. split.
    + rewrite Ht', Ht. now rewrite app_assoc.
    + apply Forall_app. split; [exact Hf|]. now rewrite <- Hc.
Qed.

(** A step that keeps the sensor's cache and attributes and the count
    of objects, and adds events of the client. *)
Lemma Sound_events (s s' : State) (evs : list (Event Obj)) :
  cached_client (fst s') = cached_client (fst s) ->
  same_attributes (fst s) (fst s') ->
  allocated (snd s') = allocated (snd s) ->
  trace (snd s') = (trace (snd s) ++ evs)%list ->
  Forall (by_client (the_client s)) evs ->
  Sound s s'.
Proof.
  intros Hc Ha Hn Ht Hf. split; [now apply the_client_ext|].
  split; [now left|]. now exists evs.
Qed.

Lemma Sounds_ret {A} (a : A) : Sounds (ret a).
Proof. intros s. apply Sound_refl. Qed.

Lemma Sounds_bind {A B} (m : M A) (k : A -> M B) :
  Sounds m -> (forall a, Sounds (k a)) -> Sounds (bind m k).
Proof.
  intros Hm Hk s. unfold bind.
  specialize (Hm s). destruct (m s) as [[a|e] s']; cbn in *.
  - eapply Sound_trans; [exact Hm | apply Hk].
  - exact Hm.
Qed.

Lemma Sounds_super (h : Hook Obj) : Sounds (super h).
Proof.
  intros [self w]. unfold super.
  destruct (Monitor_hook h (monitor self)) as [r b]. cbn.
  apply Sound_events with (evs := [Delegated h]); try reflexivity.
  - repeat split.
  - repeat constructor.
Qed.

Lemma Silent_Sounds {A} (m : M A) : Silent m -> Sounds m.
Proof.
  intros H s. destruct (H s) as (Hs & Ht & Ha).
  apply Sound_events with (evs := []).
  - now rewrite Hs.
  - rewrite Hs. apply same_attributes_refl.
  - exact Ha.
  - now rewrite Ht, app_nil_r.
  - constructor.
Qed.

Lemma Silent_monotonic : Silent monotonic.
Proof. intros [self w]. repeat split. Qed.

Lemma Silent_last_events_runtime : Silent last_events_runtime.
Proof.
  intros [self w]. unfold last_events_runtime.
  destruct (rev (events_runtime (monitor self))); repeat split.
Qed.

Lemma Sounds_client : Sounds client.
Proof.
  intros [self w]. unfold client.
  destruct (cached_client self) as [c|] eqn:Hc; [apply Sound_refl|].
  unfold Sound, the_client. cbn. rewrite Hc.
  split; [reflexivity|]. split; [now right|].
  eexists. split; [reflexivity|]. repeat constructor.
Qed.

(** After a read of [client] the cache holds what the read returned. *)
Lemma client_result (s : State) :
  client s = (Ok (the_client s), snd (client s)) /\
  cached_client (fst (snd (client s))) = Some (the_client s).
Proof.
  destruct s as [self w]. unfold client, the_client. cbn.
  destruct (cached_client self) as [c|] eqn:Hc; cbn; auto.
Qed.

Lemma Sound_emit (s : State) (c : DatadogStatsClient.t) (f : World Obj -> World Obj) :
  cached_client (fst s) = Some c ->
  (exists call,
      f (snd s) = record (Called (DogStatsd.handle (DatadogStatsClient.client c)) call)
                    (snd s) /\
      by_client (Obj := Obj) c
        (Called (DogStatsd.handle (DatadogStatsClient.client c)) call)) ->
  Sound s (snd (lift f s)).
Proof.
  intros Hc (call & E & Hb). destruct s as [self w]. cbn in *.
  rewrite E.
  apply Sound_events
    with (evs := [Called (DogStatsd.handle (DatadogStatsClient.client c)) call]);
    try reflexivity.
  - apply same_attributes_refl.
  - unfold the_client. cbn. rewrite Hc. repeat constructor; apply Hb.
Qed.

Lemma Sounds_on_client (method : DatadogStatsClient.t -> World Obj -> World Obj) :
  (forall c w,
      exists call,
        method c w = record (Called (DogStatsd.handle (DatadogStatsClient.client c)) call) w /\
        by_client (Obj := Obj) c
        (Called (DogStatsd.handle (DatadogStatsClient.client c)) call)) ->
  Sounds (on_client method).
Proof.
  intros H s. unfold on_client, bind.
  destruct (client_result s) as (E & Hc). rewrite E.
  eapply Sound_trans; [apply Sounds_client|].
  apply Sound_emit with (c := the_client s); [exact Hc | apply H].
Qed.

Lemma Sounds_client_then {A} (m : M A)
    (f : DatadogStatsClient.t -> A -> World Obj -> World Obj) :
  Silent m ->
  (forall c x w,
      exists call,
        f c x w = record (Called (DogStatsd.handle (DatadogStatsClient.client c)) call) w /\
        by_client (Obj := Obj) c
        (Called (DogStatsd.handle (DatadogStatsClient.client c)) call)) ->
  Sounds (bind client (fun c => bind m (fun x => lift (f c x)))).
Proof.
  intros Hm H s. unfold bind at 1.
  destruct (client_result s) as (E & Hc). rewrite E.
  eapply Sound_trans; [apply Sounds_client|].
  unfold bind. destruct (Hm (snd (client s))) as (Hs & Ht & Ha).
  pose proof (Silent_Sounds m Hm (snd (client s))) as Hsound.
  destruct (m (snd (client s))) as [[x|e] s1]; cbn in *; [|exact Hsound].
  eapply Sound_trans; [exact Hsound|].
  apply Sound_emit with (c := the_client s); [now rewrite Hs | apply H].
Qed.

Lemma Sounds_for_each {A} (l : list A) (body : A -> M unit) :
  (forall x, Sounds (body x)) -> Sounds (for_each l body).
Proof.
  intros H. induction l as [|x l IH]; cbn.
  - apply Sounds_ret.
  - apply Sounds_bind; [apply H | intros _; exact IH].
Qed.

End SoundProperties.

Ltac sounds :=
  repeat first
    [ apply Sounds_ret
    | apply Sounds_super
    | apply Sounds_on_client; intros ? ?; emits_by
    | apply Sounds_client_then;
      [first [apply Silent_monotonic | apply Silent_last_events_runtime]
      | intros ? ? ?; emits_by]
    | apply Sounds_for_each; intros ?
    | apply Sounds_bind; [| intros ?] ].

Section OneClient.
Context {Obj : Type} {base : MonitorBase Obj}.

Lemma Sounds_call (h : Hook Obj) : Sounds (call h).
Proof.
  destruct h; unfold call, on_message_in, on_stream_event_in, on_stream_event_out,
    on_message_out, on_table_get, on_table_set, on_table_del, on_commit_completed,
    on_send_initiated, on_send_completed, count, on_tp_commit, track_tp_end_offset;
    sounds.
Qed.

Lemma Sound_calls_in_turn (hs : list (Hook Obj)) (s : State) :
  Sound s (calls_in_turn hs s).
Proof.
  revert s. induction hs as [|h hs IH]; intros s; cbn.
  - apply Sound_refl.
  - eapply Sound_trans; [apply Sounds_call | apply IH].
Qed.

Lemma added_by_client (hs : list (Hook Obj)) (self : DatadogStatsMonitor) (w : World Obj) :
  Forall (by_client (the_client (self, w))) (added_by hs self w).
Proof.
  destruct (Sound_calls_in_turn hs (self, w)) as (_ & _ & evs & Ht & Hf).
  unfold added_by. cbn in Ht. rewrite Ht, skipn_app_exact. exact Hf.
Qed.

End OneClient.

Section SensorInvariants.
Context {Obj : Type} {base : MonitorBase Obj}.

Lemma calls_tags_ok (c : DatadogStatsClient.t) (evs : list (Event Obj)) :
  (forall labels,
      match DatadogStatsClient._encode_labels c labels with
      | None => true
      | Some tags => forallb tag_ok tags
      end = true) ->
  Forall (by_client c) evs ->
  forallb tags_ok (calls evs) = true.
Proof.
  intros Hc Hf. induction Hf as [|e evs He _ IH]; [reflexivity|].
  destruct e as [h|d|n call]; cbn; try exact IH.
  rewrite IH, andb_true_r.
  destruct He as (_ & _ & labels & E). unfold tags_ok. rewrite E. apply Hc.
Qed.

(** X11: a new sensor builds at most one transport, from its own host,
    port and prefix, and every metric call of every hook goes to that
    transport and carries the sample rate of the sensor. *)
Theorem sensor_uses_one_client_and_rate (self : DatadogStatsMonitor) (w : World Obj)
    (hs : list (Hook Obj)) :
  cached_client self = None ->
  Forall
    (fun e =>
       match e with
       | Delegated _ => True
       | Constructed d =>
           d = {| DogStatsd.handle := allocated w; DogStatsd.host := host self;
                  DogStatsd.port := port self; DogStatsd.namespace := prefix self;
                  DogStatsd.kwargs := [] |}
       | Called n call => n = allocated w /\ DogStatsd.sample_rate_of call = rate self
       end)
    (added_by hs self w).
Proof.
  intros Hn. pose proof (added_by_client hs self w) as H.
  unfold the_client in H. cbn in H. rewrite Hn in H. cbn in H.
  eapply Forall_impl; [|exact H].
  intros [h|d|n call]; cbn; [auto | auto |].
  intros (Hh & Hr & _). now split.
Qed.

(** X12: every tag a new sensor ever hands to the transport, whatever
    hooks are called with whatever topics, stream labels and table
    names, is word characters, one colon, word characters. *)
Theorem sensor_tags_well_formed (self : DatadogStatsMonitor) (w : World Obj)
    (hs : list (Hook Obj)) :
  cached_client self = None ->
  forallb tags_ok (calls (added_by hs self w)) = true.
Proof.
  intros Hn. pose proof (added_by_client hs self w) as H.
  unfold the_client in H. cbn [fst snd] in H. rewrite Hn in H.
  eapply calls_tags_ok; [|exact H].
  intros labels. apply encoded_tags_ok.
Qed.

(** X13: no hook changes the host, port, prefix or rate of the
    sensor. *)
Theorem hooks_keep_attributes (hs : list (Hook Obj)) (s : State) :
  host (fst (calls_in_turn hs s)) = host (fst s) /\
  port (fst (calls_in_turn hs s)) = port (fst s) /\
  prefix (fst (calls_in_turn hs s)) = prefix (fst s) /\
  rate (fst (calls_in_turn hs s)) = rate (fst s).
Proof.
  destruct (Step_calls_in_turn hs s) as ((Hh & Hp & Hx & Hr) & _).
  repeat split; congruence.
Qed.

End SensorInvariants.

(** ** What a hook does to the base class and what it returns *)

Section MonitorProperties.
Context {Obj : Type} {base : MonitorBase Obj}.

Lemma Keeps_ret {A} (a : A) : Keeps_monitor (ret a).
Proof. intros s. reflexivity. Qed.

Lemma Keeps_bind {A B} (m : M A) (k : A -> M B) :
  Keeps_monitor m -> (forall a, Keeps_monitor (k a)) -> Keeps_monitor (bind m k).
Proof.
  intros Hm Hk s. unfold bind. specialize (Hm s).
  destruct (m s) as [[a|e] s']; cbn in *; [|exact Hm].
  now rewrite Hk.
Qed.

Lemma Keeps_client : Keeps_monitor client.
Proof.
  intros [self w]. unfold client. destruct (cached_client self); reflexivity.
Qed.

Lemma Keeps_lift (f : World Obj -> World Obj) : Keeps_monitor (lift f).
Proof. intros [self w]. reflexivity. Qed.

Lemma Keeps_on_client (method : DatadogStatsClient.t -> World Obj -> World Obj) :
  Keeps_monitor (on_client method).
Proof. apply Keeps_bind; [apply Keeps_client | intros c; apply Keeps_lift]. Qed.

Lemma Keeps_monotonic : Keeps_monitor monotonic.
Proof. intros [self w]. reflexivity. Qed.

Lemma Keeps_last_events_runtime : Keeps_monitor last_events_runtime.
Proof.
  intros [self w]. unfold last_events_runtime.
  destruct (rev (events_runtime (monitor self))); reflexivity.
Qed.

Lemma Keeps_for_each {A} (l : list A) (body : A -> M unit) :
  (forall x, Keeps_monitor (body x)) -> Keeps_monitor (for_each l body).
Proof.
  intros H. induction l as [|x l IH]; cbn.
  - apply Keeps_ret.
  - apply Keeps_bind; [apply H | intros _; exact IH].
Qed.

Lemma Returns_ret {A} (a : A) : Returns (ret a).
Proof. intros s. now exists a. Qed.

Lemma Returns_bind {A B} (m : M A) (k : A -> M B) :
  Returns m -> (forall a, Returns (k a)) -> Returns (bind m k).
Proof.
  intros Hm Hk s. unfold bind. destruct (Hm s) as (a & E).
  destruct (m s) as [r s']. cbn in E. subst r. apply Hk.
Qed.

Lemma Returns_client : Returns client.
Proof.
  intros [self w]. unfold client. destruct (cached_client self); cbn; eauto.
Qed.

Lemma Returns_lift (f : World Obj -> World Obj) : Returns (lift f).
Proof. intros [self w]. now exists tt. Qed.

Lemma Returns_on_client (method : DatadogStatsClient.t -> World Obj -> World Obj) :
  Returns (on_client method).
Proof. apply Returns_bind; [apply Returns_client | intros c; apply Returns_lift]. Qed.

Lemma Returns_monotonic : Returns monotonic.
Proof. intros [self w]. cbn. eauto. Qed.

Lemma Returns_for_each {A} (l : list A) (body : A -> M unit) :
  (forall x, Returns (body x)) -> Returns (for_each l body).
Proof.
  intros H. induction l as [|x l IH]; cbn.
  - apply Returns_ret.
  - apply Returns_bind; [apply H | intros _; exact IH].
Qed.

Lemma super_run (h : Hook Obj) (s : State) :
  fst (super h s) = fst (Monitor_hook h (monitor (fst s))) /\
  monitor (fst (snd (super h s))) = snd (Monitor_hook h (monitor (fst s))) /\
  trace (snd (snd (super h s))) = (trace (snd s) ++ [Delegated h])%list.
Proof.
  destruct s as [self w]. unfold super. cbn.
  destruct (Monitor_hook h (monitor self)) as [r b]. repeat split.
Qed.

Lemma bind_ret_state {A B} (m : M A) (f : A -> B) (s : State) :
  snd (bind m (fun a => ret (f a)) s) = snd (m s).
Proof. unfold bind, ret. destruct (m s) as [[a|e] s']; reflexivity. Qed.

Lemma monitor_after_super_then {A} (h : Hook Obj) (k : Obj -> M A) (s : State) :
  (forall a, Keeps_monitor (k a)) ->
  monitor (fst (snd (bind (super h) k s))) = snd (Monitor_hook h (monitor (fst s))).
Proof.
  intros Hk. destruct (super_run h s) as (_ & Hm & _). unfold bind.
  destruct (super h s) as [[a|e] s']; cbn in *; [|exact Hm].
  now rewrite Hk.
Qed.

Lemma monitor_after_then_super {A} (h : Hook Obj) (m : M A) (s : State) :
  Keeps_monitor m -> Returns m ->
  monitor (fst (snd (bind m (fun _ => super h) s))) = snd (Monitor_hook h (monitor (fst s))).
Proof.
  intros Hk Hr. unfold bind. destruct (Hr s) as (a & E). specialize (Hk s).
  destruct (m s) as [r s']. cbn in *. subst r.
  destruct (super_run h s') as (_ & Hm & _). now rewrite Hm, Hk.
Qed.

Lemma result_super_then (h : Hook Obj) (k : Obj -> M unit) (s : State) :
  (forall a, Returns (k a)) ->
  fst (bind (bind (super h) k) (fun _ => ret (@None Obj)) s)
  = match fst (Monitor_hook h (monitor (fst s))) with
    | Ok _ => Ok None
    | Raise e => Raise e
    end.
Proof.
  intros Hk. destruct (super_run h s) as (Hr & _). rewrite <- Hr. unfold bind.
  destruct (super h s) as [[a|e] s']; cbn; [|reflexivity].
  destruct (Hk a s') as (x & E). destruct (k a s') as [r s'']. cbn in E. now subst r.
Qed.

Lemma result_then_super {A} (h : Hook Obj) (m : M A) (s : State) :
  Keeps_monitor m -> Returns m ->
  fst (bind (bind m (fun _ => super h)) (fun r => ret (Some r)) s)
  = match fst (Monitor_hook h (monitor (fst s))) with
    | Ok r => Ok (Some r)
    | Raise e => Raise e
    end.
Proof.
  intros Hk Hr. unfold bind. destruct (Hr s) as (a & E). specialize (Hk s).
  destruct (m s) as [r s']. cbn in *. subst r.
  destruct (super_run h s') as (Hs & _). rewrite Hk in Hs. rewrite <- Hs.
  destruct (super h s') as [[x|e] s'']; reflexivity.
Qed.

Lemma raise_stops {A B} (h : Hook Obj) (k : Obj -> M A) (k' : A -> M B) (s : State)
    (e : Exception) :
  fst (Monitor_hook h (monitor (fst s))) = Raise e ->
  fst (bind (bind (super h) k) k' s) = Raise e /\
  trace (snd (snd (bind (bind (super h) k) k' s))) = (trace (snd s) ++ [Delegated h])%list.
Proof.
  intros H. destruct (super_run h s) as (Hr & _ & Ht). rewrite H in Hr.
  unfold bind. destruct (super h s) as [r s']. cbn in *. subst r. now split.
Qed.

End MonitorProperties.

Ltac keeps :=
  repeat first
    [ apply Keeps_ret
    | apply Keeps_on_client
    | apply Keeps_client
    | apply Keeps_lift
    | apply Keeps_monotonic
    | apply Keeps_last_events_runtime
    | apply Keeps_for_each; intros ?
    | apply Keeps_bind; [| intros ?] ].

Ltac returns :=
  repeat first
    [ apply Returns_ret
    | apply Returns_on_client
    | apply Returns_client
    | apply Returns_lift
    | apply Returns_monotonic
    | apply Returns_for_each; intros ?
    | apply Returns_bind; [| intros ?] ].

Section HostUntouched.
Context {Obj : Type} {base : MonitorBase Obj}.

(** X14: after any hook, what the base class keeps is exactly what its
    own hook, run once on what it kept before, leaves: the sensor adds
    metric calls and changes nothing of the base bookkeeping. *)
Theorem hook_leaves_base_bookkeeping (h : Hook Obj) (s : State) :
  monitor (fst (snd (call h s))) = snd (Monitor_hook h (monitor (fst s))).
Proof.
  destruct h; unfold call; rewrite bind_ret_state;
    unfold on_message_in, on_stream_event_in, on_stream_event_out, on_message_out,
      on_table_get, on_table_set, on_table_del, on_commit_completed, on_send_initiated,
      on_send_completed, count, on_tp_commit, track_tp_end_offset;
    first [ apply monitor_after_super_then; intros; keeps
          | apply monitor_after_then_super; [keeps | returns] ].
Qed.

(** X15: apart from [on_stream_event_out], a hook raises exactly when
    the hook of the base class raises, and raises the same exception;
    when the base class returns, [on_send_initiated] returns its value
    and the other hooks return [None]. *)
Theorem hook_result_is_the_base_result (h : Hook Obj) (s : State) :
  if is_stream_event_out h
  then True
  else fst (call h s)
       = match fst (Monitor_hook h (monitor (fst s))) with
         | Ok r => Ok (returned h r)
         | Raise e => Raise e
         end.
Proof.
  destruct h; cbn [is_stream_event_out]; try exact I; unfold call, returned;
    cbn [is_send_initiated];
    unfold on_message_in, on_stream_event_in, on_message_out,
      on_table_get, on_table_set, on_table_del, on_commit_completed, on_send_initiated,
      on_send_completed, count, on_tp_commit, track_tp_end_offset;
    first [ apply result_super_then; intros; returns
          | apply result_then_super; [keeps | returns] ].
Qed.

(** X16: where the hook of the base class raises, a hook other than
    [on_send_initiated] raises the same exception after the delegation
    alone: no metric call is made and no client is built. *)
Theorem failed_delegation_emits_nothing (h : Hook Obj) (s : State) (e : Exception) :
  is_send_initiated h = false ->
  fst (Monitor_hook h (monitor (fst s))) = Raise e ->
  fst (call h s) = Raise e /\ added (call h) s = [Delegated h].
Proof.
  intros Hh He.
  assert (H : fst (call h s) = Raise e /\
              trace (snd (snd (call h s))) = (trace (snd s) ++ [Delegated h])%list).
  { destruct h; try discriminate Hh; unfold call;
      unfold on_message_in, on_stream_event_in, on_stream_event_out, on_message_out,
        on_table_get, on_table_set, on_table_del, on_commit_completed,
        on_send_completed, count, on_tp_commit, track_tp_end_offset;
      now apply raise_stops. }
  destruct H as (Hr & Ht). split; [exact Hr | now apply added_of_trace].
Qed.

End HostUntouched.

(** ** The metric calls of the other hooks *)

Ltac run_hook Hh self :=
  unfold the_client, added, on_stream_event_in, on_message_out, on_table_get,
    on_table_set, on_table_del, on_commit_completed, on_send_completed, count,
    track_tp_end_offset, on_client, bind, client, lift, super, monotonic;
  cbn; rewrite Hh; cbn;
  let Hc := fresh "Hc" in
  destruct (cached_client self) as [?c|] eqn:Hc; cbn; repeat (rewrite Hc; cbn);
  rewrite <- ?app_assoc, skipn_app_exact; auto.

Section OtherHooks.
Context {Obj : Type} {base : MonitorBase Obj}.

(** X17: where the base class returns, [on_stream_event_in] makes two
    metric calls, increments by 1 of [events] and of [events_active],
    both with the labels [topic], [partition] and [stream]. *)
Theorem stream_event_in_emits (tp : TP) (offset : Z) (stream : StreamT) (event : Obj)
    (self : DatadogStatsMonitor) (w : World Obj) (r : Obj) (b : Monitor) :
  Monitor_hook (OnStreamEventIn tp offset stream event) (monitor self) = (Ok r, b) ->
  exists c,
    cached_client (fst (snd (on_stream_event_in tp offset stream event (self, w))))
      = Some c /\
    calls (added (on_stream_event_in tp offset stream event) (self, w))
    = [sends c (DatadogStatsClient.Increment "events" (Int 1)
                  (Some [("topic", VStr (topic tp)); ("partition", VInt (partition tp));
                         ("stream", VStr (_stream_label stream))]));
       sends c (DatadogStatsClient.Increment "events_active" (Int 1)
                  (Some [("topic", VStr (topic tp)); ("partition", VInt (partition tp));
                         ("stream", VStr (_stream_label stream))]))].
Proof.
  intros Hh. exists (the_client (self, w)). run_hook Hh self.
Qed.

(** X18: where the base class returns, [on_message_out] makes one
    metric call, a decrement of [messages_active] by 1.0 with the
    labels [topic] and [partition]. *)
Theorem message_out_emits (tp : TP) (offset : Z) (message : Obj)
    (self : DatadogStatsMonitor) (w : World Obj) (r : Obj) (b : Monitor) :
  Monitor_hook (OnMessageOut tp offset message) (monitor self) = (Ok r, b) ->
  exists c,
    cached_client (fst (snd (on_message_out tp offset message (self, w)))) = Some c /\
    calls (added (on_message_out tp offset message) (self, w))
    = [sends c (DatadogStatsClient.Decrement "messages_active" (Float 1)
                  (Some [("topic", VStr (topic tp)); ("partition", VInt (partition tp))]))].
Proof.
  intros Hh. exists (the_client (self, w)). run_hook Hh self.
Qed.

(** X19: each table hook, where its own hook of the base class
    returns, makes one metric call: an increment by 1 of
    [table_keys_retrieved] for a get, of [table_keys_updated] for a set
    and of [table_keys_deleted] for a delete, with the one label
    [table], the name of the table. *)
Theorem table_hooks_emit (table : CollectionT) (key value : Obj)
    (self : DatadogStatsMonitor) (w : World Obj) :
  (forall (r : Obj) (b : Monitor),
      Monitor_hook (OnTableGet table key) (monitor self) = (Ok r, b) ->
      calls (added (on_table_get table key) (self, w))
      = [sends (the_client (self, w))
           (DatadogStatsClient.Increment "table_keys_retrieved" (Int 1)
              (Some [("table", VStr (name table))]))]) /\
  (forall (r : Obj) (b : Monitor),
      Monitor_hook (OnTableSet table key value) (monitor self) = (Ok r, b) ->
      calls (added (on_table_set table key value) (self, w))
      = [sends (the_client (self, w))
           (DatadogStatsClient.Increment "table_keys_updated" (Int 1)
              (Some [("table", VStr (name table))]))]) /\
  (forall (r : Obj) (b : Monitor),
      Monitor_hook (OnTableDel table key) (monitor self) = (Ok r, b) ->
      calls (added (on_table_del table key) (self, w))
      = [sends (the_client (self, w))
           (DatadogStatsClient.Increment "table_keys_deleted" (Int 1)
              (Some [("table", VStr (name table))]))]).
Proof.
  split; [|split]; intros r b Hh; run_hook Hh self.
Qed.

(** X20: where the base class returns, [on_commit_completed] reads the
    clock once and makes one metric call, a timing [commit_latency] of
    the reading less the start time, times 1000, with no tags. *)
Theorem commit_completed_emits (consumer : Obj) (state : float)
    (self : DatadogStatsMonitor) (w : World Obj) (r : Obj) (b : Monitor) :
  Monitor_hook (OnCommitCompleted consumer state) (monitor self) = (Ok r, b) ->
  calls (added (on_commit_completed consumer state) (self, w))
  = [DogStatsd.timing "commit_latency"
       (Float ((monotonic_clock w (ticks w) - state) * 1000)%float) None
       (DatadogStatsClient.rate (the_client (self, w)))] /\
  ticks (snd (snd (on_commit_completed consumer state (self, w)))) = S (ticks w).
Proof.
  intros Hh. run_hook Hh self.
Qed.

(** X21: where the base class returns, [on_send_completed] makes two
    metric calls with no tags: an increment of [messages_sent] by 1,
    then a timing [send_latency] of the clock reading less the start
    time, times 1000. *)
Theorem send_completed_emits (producer : Obj) (state : float)
    (self : DatadogStatsMonitor) (w : World Obj) (r : Obj) (b : Monitor) :
  Monitor_hook (OnSendCompleted producer state) (monitor self) = (Ok r, b) ->
  calls (added (on_send_completed producer state) (self, w))
  = [DogStatsd.increment "messages_sent" (Int 1) None
       (DatadogStatsClient.rate (the_client (self, w)));
     DogStatsd.timing "send_latency"
       (Float ((monotonic_clock w (ticks w) - state) * 1000)%float) None
       (DatadogStatsClient.rate (the_client (self, w)))].
Proof.
  intros Hh. run_hook Hh self.
Qed.

(** X22: where the base class returns, [count] makes one metric call,
    an increment of the metric named by the caller, by the count given,
    zero or negative as it may be, with no tags. *)
Theorem count_emits (metric_name : str) (n : Z)
    (self : DatadogStatsMonitor) (w : World Obj) (r : Obj) (b : Monitor) :
  Monitor_hook (Count metric_name n) (monitor self) = (Ok r, b) ->
  calls (added (count metric_name n) (self, w))
  = [DogStatsd.increment metric_name (Int n) None
       (DatadogStatsClient.rate (the_client (self, w)))].
Proof.
  intros Hh. run_hook Hh self.
Qed.

(** X23: where the base class returns, [track_tp_end_offset] makes one
    metric call, a gauge [end_offset] of the offset with the labels
    [topic] and [partition]. *)
Theorem track_tp_end_offset_emits (tp : TP) (offset : Z)
    (self : DatadogStatsMonitor) (w : World Obj) (r : Obj) (b : Monitor) :
  Monitor_hook (TrackTpEndOffset tp offset) (monitor self) = (Ok r, b) ->
  exists c,
    cached_client (fst (snd (track_tp_end_offset tp offset (self, w)))) = Some c /\
    calls (added (track_tp_end_offset tp offset) (self, w))
    = [sends c (DatadogStatsClient.Gauge "end_offset" (Int offset)
                  (Some [("topic", VStr (topic tp)); ("partition", VInt (partition tp))]))].
Proof.
  intros Hh. exists (the_client (self, w)). run_hook Hh self.
Qed.

End OtherHooks.

Section CommittedOffsets.
Context {Obj : Type} {base : MonitorBase Obj}.

Lemma on_client_trace (method : DatadogStatsClient.t -> World Obj -> World Obj)
    (g : DatadogStatsClient.t -> DogStatsd.Call) (s : State) :
  (forall c w,
      method c w = record (Called (DogStatsd.handle (DatadogStatsClient.client c)) (g c)) w) ->
  the_client (snd (on_client method s)) = the_client s /\
  exists evs,
    trace (snd (snd (on_client method s))) = (trace (snd s) ++ evs)%list /\
    calls evs = [g (the_client s)].
Proof.
  intros H. destruct s as [self w].
  unfold on_client, bind, client, lift, the_client. cbn.
  destruct (cached_client self) as [c|] eqn:Hc; cbn; rewrite ?Hc, H; cbn.
  - split; [reflexivity|]. eexists. split; reflexivity.
  - split; [reflexivity|]. eexists. rewrite <- app_assoc. split; reflexivity.
Qed.

Lemma for_each_trace {A} (method : A -> DatadogStatsClient.t -> World Obj -> World Obj)
    (g : A -> DatadogStatsClient.t -> DogStatsd.Call) (l : list A) (s : State) :
  (forall x c w,
      method x c w
      = record (Called (DogStatsd.handle (DatadogStatsClient.client c)) (g x c)) w) ->
  the_client (snd (for_each l (fun x => on_client (method x)) s)) = the_client s /\
  exists evs,
    trace (snd (snd (for_each l (fun x => on_client (method x)) s)))
    = (trace (snd s) ++ evs)%list /\
    calls evs = map (fun x => g x (the_client s)) l.
Proof.
  intros H. revert s. induction l as [|x l IH]; intros s.
  - cbn. split; [reflexivity|]. exists []. now rewrite app_nil_r.
  - cbn [for_each]. unfold bind.
    destruct (on_client_trace (method x) (g x) s (H x)) as (Hc & evs & Ht & Hcalls).
    destruct (Returns_on_client (method x) s) as (u & Hu).
    destruct (on_client (method x) s) as [res s1]. cbn in *. subst res.
    destruct (IH s1) as (Hc' & evs' & Ht' & Hcalls').
    split; [congruence|].
    exists (evs ++ evs')%list. split.
    + rewrite Ht', Ht. now rewrite app_assoc.
    + rewrite calls_app, Hcalls, Hcalls', Hc. reflexivity.
Qed.

(** X24: where the base class returns, [on_tp_commit] makes one gauge
    [committed_offset] for each entry of the mapping, in the order of
    the mapping, with the offset and the labels [topic] and [partition]
    of the entry; for an empty mapping it delegates and does nothing
    more: no call, no client built. *)
Theorem tp_commit_emits (tp_offsets : list (TP * Z))
    (self : DatadogStatsMonitor) (w : World Obj) (r : Obj) (b : Monitor) :
  Monitor_hook (OnTpCommit tp_offsets) (monitor self) = (Ok r, b) ->
  calls (added (on_tp_commit tp_offsets) (self, w))
  = map (fun item =>
           sends (the_client (self, w))
             (DatadogStatsClient.Gauge "committed_offset" (Int (snd item))
                (Some [("topic", VStr (topic (fst item)));
                       ("partition", VInt (partition (fst item)))])))
      tp_offsets /\
  match tp_offsets with
  | [] => added (on_tp_commit tp_offsets) (self, w) = [Delegated (OnTpCommit [])]
  | _ :: _ => True
  end.
Proof.
  intros Hh. split.
  - unfold added, on_tp_commit, bind, super. cbv beta iota. rewrite Hh.
    cbv beta iota. cbn [fst snd].
    destruct (for_each_trace
                (fun (item : TP * Z) c =>
                   DatadogStatsClient.gauge c "committed_offset" (Int (snd item))
                     (Some (_format_label (Some (fst item)) None None)))
                (fun item c =>
                   sends c (DatadogStatsClient.Gauge "committed_offset" (Int (snd item))
                              (Some (_format_label (Some (fst item)) None None))))
                tp_offsets
                (set_monitor b self, record (Delegated (OnTpCommit tp_offsets)) w))
      as (_ & evs & Ht & Hcalls); [reflexivity|].
    rewrite Ht. cbn [fst snd record trace].
    rewrite <- app_assoc, skipn_app_exact. cbn [calls app].
    rewrite Hcalls. apply map_ext. intros item.
    unfold the_client. cbn. reflexivity.
  - destruct tp_offsets; [|exact I].
    unfold added, on_tp_commit, bind, super. cbn. rewrite Hh. cbn.
    apply skipn_app_exact.
Qed.

(** X25: construction fails in two ways only: with [ImportError] where
    the datadog library is missing, and with whatever the [__init__] of
    the base class raises where it is there; the sensor's own
    [ImproperlyConfigured] never comes out. *)
Theorem construct_failures (datadog_installed : bool) (host_ : str) (port_ : Z)
    (prefix_ : str) (rate_ : float) (kwargs : Obj) (e : Exception) :
  construct datadog_installed host_ port_ prefix_ rate_ kwargs = Raise e ->
  (datadog_installed = false /\ e = ImportError) \/
  (datadog_installed = true /\ Monitor_init kwargs = Raise e).
Proof.
  destruct datadog_installed; cbn.
  - destruct (Monitor_init kwargs) as [b|x]; [discriminate|].
    intros H. right. split; [reflexivity|]. now inversion H.
  - intros H. left. split; [reflexivity|]. now inversion H.
Qed.

End CommittedOffsets.

(** * Examples for the further properties *)


(** A clean table name. *)
Lemma sanitize_keeps_clean_text_witness :
  DatadogStatsClient.sanitize
    (fst (DatadogStatsClient.__init__ "localhost" 8125 "faust-app" 1%float []
            SmallHost.world)) (VStr "orders_2")
  = "orders_2".
Proof. apply sanitize_keeps_clean_text. reflexivity. Defined.

(** Partition 12. *)
Lemma sanitize_keeps_nonnegative_numbers_witness :
  DatadogStatsClient.sanitize
    (fst (DatadogStatsClient.__init__ "localhost" 8125 "faust-app" 1%float []
            SmallHost.world)) (VInt 12)
  = py_str (VInt 12).
Proof. apply sanitize_keeps_nonnegative_numbers. lia. Defined.

(** Four hooks on the sensor of the strict host, sampled at one half;
    the first one is refused by the base class. *)
Lemma sensor_uses_one_client_and_rate_witness :
  Forall
    (fun e =>
       match e with
       | Delegated _ => True
       | Constructed d =>
           d = {| DogStatsd.handle := 7; DogStatsd.host := "statsd.local";
                  DogStatsd.port := 8125; DogStatsd.namespace := "app";
                  DogStatsd.kwargs := [] |}
       | Called n call => n = 7%nat /\ DogStatsd.sample_rate_of call = 0.5%float
       end)
    (added_by [OnMessageIn StrictHost.orders (-1) 0;
               OnMessageIn StrictHost.orders 42 0;
               OnTableSet StrictHost.accounts 1 2;
               OnCommitCompleted 0 10%float]
       StrictHost.sensor StrictHost.world).
Proof.
  apply (sensor_uses_one_client_and_rate StrictHost.sensor StrictHost.world).
  reflexivity.
Defined.

(** A table name with a dash and a stream label with blanks. *)
Lemma sensor_tags_well_formed_witness :
  forallb tags_ok
    (calls (added_by [OnTableSet StrictHost.accounts 1 2;
                      OnStreamEventIn StrictHost.orders 42
                        {| shortlabel := "Stream: <Topic: a b>" |} 0;
                      OnSendInitiated 0 "pay ments" 1 2]
              StrictHost.sensor StrictHost.world))
  = true.
Proof.
  apply (sensor_tags_well_formed StrictHost.sensor StrictHost.world).
  reflexivity.
Defined.

(** The strict host refuses a message at offset -1. *)
Lemma failed_delegation_emits_nothing_witness :
  fst (call (OnMessageIn StrictHost.orders (-1) 0) (StrictHost.sensor, StrictHost.world))
  = Raise (HostError "negative offset") /\
  added (call (OnMessageIn StrictHost.orders (-1) 0)) (StrictHost.sensor, StrictHost.world)
  = [Delegated (OnMessageIn StrictHost.orders (-1) 0)].
Proof.
  apply (failed_delegation_emits_nothing (OnMessageIn StrictHost.orders (-1) 0)
           (StrictHost.sensor, StrictHost.world)); reflexivity.
Defined.

Lemma stream_event_in_emits_witness :
  exists c,
    cached_client
      (fst (snd (on_stream_event_in SmallHost.orders 42 SmallHost.withdrawals None
                   SmallHost.start))) = Some c /\
    calls (added (on_stream_event_in SmallHost.orders 42 SmallHost.withdrawals None)
             SmallHost.start)
    = [sends c (DatadogStatsClient.Increment "events" (Int 1)
                  (Some [("topic", VStr "orders"); ("partition", VInt 2);
                         ("stream", VStr "topic_withdrawals")]));
       sends c (DatadogStatsClient.Increment "events_active" (Int 1)
                  (Some [("topic", VStr "orders"); ("partition", VInt 2);
                         ("stream", VStr "topic_withdrawals")]))].
Proof.
  apply (stream_event_in_emits SmallHost.orders 42 SmallHost.withdrawals None
           SmallHost.sensor SmallHost.world None []).
  reflexivity.
Defined.

Lemma message_out_emits_witness :
  exists c,
    cached_client
      (fst (snd (on_message_out SmallHost.orders 42 None SmallHost.start))) = Some c /\
    calls (added (on_message_out SmallHost.orders 42 None) SmallHost.start)
    = [sends c (DatadogStatsClient.Decrement "messages_active" (Float 1)
                  (Some [("topic", VStr "orders"); ("partition", VInt 2)]))].
Proof.
  apply (message_out_emits SmallHost.orders 42 None SmallHost.sensor SmallHost.world
           None []).
  reflexivity.
Defined.

(** The table [accounts-table]: its tag is [table:accounts_table]. *)
Lemma table_hooks_emit_witness :
  calls (added (on_table_get StrictHost.accounts 1) (StrictHost.sensor, StrictHost.world))
  = [DogStatsd.increment "table_keys_retrieved" (Int 1)
       (Some ["table:accounts_table"]) 0.5%float] /\
  calls (added (on_table_set StrictHost.accounts 1 2) (StrictHost.sensor, StrictHost.world))
  = [DogStatsd.increment "table_keys_updated" (Int 1)
       (Some ["table:accounts_table"]) 0.5%float] /\
  calls (added (on_table_del StrictHost.accounts 1) (StrictHost.sensor, StrictHost.world))
  = [DogStatsd.increment "table_keys_deleted" (Int 1)
       (Some ["table:accounts_table"]) 0.5%float].
Proof.
  destruct (table_hooks_emit StrictHost.accounts 1 2 StrictHost.sensor StrictHost.world)
    as (Hget & Hset & Hdel).
  split; [|split].
  - apply (Hget 0 1%nat). reflexivity.
  - apply (Hset 0 1%nat). reflexivity.
  - apply (Hdel 0 1%nat). reflexivity.
Defined.

(** A commit started at 10.0 and completed at 10.25: 250 ms. *)
Lemma commit_completed_emits_witness :
  calls (added (on_commit_completed 0 10%float) (StrictHost.sensor, StrictHost.world))
  = [DogStatsd.timing "commit_latency" (Float 250) None 0.5%float] /\
  ticks (snd (snd (on_commit_completed 0 10%float (StrictHost.sensor, StrictHost.world))))
  = 1%nat.
Proof.
  apply (commit_completed_emits 0 10%float StrictHost.sensor StrictHost.world 0 1%nat).
  reflexivity.
Defined.

Lemma send_completed_emits_witness :
  calls (added (on_send_completed 0 10%float) (StrictHost.sensor, StrictHost.world))
  = [DogStatsd.increment "messages_sent" (Int 1) None 0.5%float;
     DogStatsd.timing "send_latency" (Float 250) None 0.5%float].
Proof.
  apply (send_completed_emits 0 10%float StrictHost.sensor StrictHost.world 0 1%nat).
  reflexivity.
Defined.

(** A count of zero is sent as it is. *)
Lemma count_emits_witness :
  calls (added (count "rebalances" 0) (StrictHost.sensor, StrictHost.world))
  = [DogStatsd.increment "rebalances" (Int 0) None 0.5%float].
Proof.
  apply (count_emits "rebalances" 0 StrictHost.sensor StrictHost.world 0 1%nat).
  reflexivity.
Defined.

Lemma track_tp_end_offset_emits_witness :
  exists c,
    cached_client
      (fst (snd (track_tp_end_offset StrictHost.orders 99
                   (StrictHost.sensor, StrictHost.world)))) = Some c /\
    calls (added (track_tp_end_offset StrictHost.orders 99)
             (StrictHost.sensor, StrictHost.world))
    = [sends c (DatadogStatsClient.Gauge "end_offset" (Int 99)
                  (Some [("topic", VStr "orders"); ("partition", VInt 2)]))].
Proof.
  apply (track_tp_end_offset_emits StrictHost.orders 99 StrictHost.sensor
           StrictHost.world 0 1%nat).
  reflexivity.
Defined.

(** Two partitions committed, then none. *)
Lemma tp_commit_emits_witness :
  calls (added (on_tp_commit [(StrictHost.orders, 5);
                              ({| topic := "orders"; partition := 3 |}, 8)])
           (StrictHost.sensor, StrictHost.world))
  = [DogStatsd.gauge "committed_offset" (Int 5)
       (Some ["topic:orders"; "partition:2"]) 0.5%float;
     DogStatsd.gauge "committed_offset" (Int 8)
       (Some ["topic:orders"; "partition:3"]) 0.5%float] /\
  added (on_tp_commit []) (StrictHost.sensor, StrictHost.world)
  = [Delegated (OnTpCommit [])].
Proof.
  split.
  - apply (tp_commit_emits [(StrictHost.orders, 5);
                            ({| topic := "orders"; partition := 3 |}, 8)]
             StrictHost.sensor StrictHost.world 0 1%nat).
    reflexivity.
  - apply (tp_commit_emits [] StrictHost.sensor StrictHost.world 0 1%nat).
    reflexivity.
Defined.

(** Without the library, and with it on a base class that refuses. *)
Lemma construct_failures_witness :
  ((false = false /\ ImportError = ImportError) \/
   (false = true /\ StrictHost.init 1 = Raise ImportError)) /\
  ((true = false /\ ImproperlyConfigured "negative" = ImportError) \/
   (true = true /\ StrictHost.init (-1) = Raise (ImproperlyConfigured "negative"))).
Proof.
  split.
  - apply (construct_failures (base := StrictHost.base) false "h" 1 "p" 1%float 1).
    reflexivity.
  - apply (construct_failures (base := StrictHost.base) true "h" 1 "p" 1%float (-1)).
    reflexivity.
Defined.
